(** * timekiosk-server: the auth gate, the CRUD router over PostgreSQL,
      and the RxDB variants (REST and sync)

    The repository holds four variants of one Express server:
    - [server.js] (first half): REST over PostgreSQL, secret in SERVER_SECRET,
      thirteen settings columns;
    - an earlier copy of it: REST over PostgreSQL, secret in SYNC_TOKEN,
      four settings columns;
    - [server.js] (second half): REST over an in-memory RxDB database;
    - the sync server: pull/push endpoints over an in-memory RxDB database,
      with no auth middleware.

    JavaScript values, Express requests and responses, the SQL statements of
    the handlers and the RxDB calls are embedded as Rocq functions.  The SQL
    engine is modelled as far as the statements of the source use it: tables
    with the NOT NULL and PRIMARY KEY constraints of the CREATE TABLE
    statements, INSERT, INSERT .. ON CONFLICT (id) DO UPDATE, SELECT and
    DELETE by id.  A bound parameter is stored as the value it carries: the
    engine's conversions between text and column types (and the driver's
    rendering of timestamps) are outside the model. *)

From stdpp Require Import base strings list gmap.
From Stdlib Require Import ZArith Lia.

Local Set Warnings "-register-all".
Local Open Scope Z_scope.

(** ** JavaScript values *)

Module Js.

(** A JSON value, as [bodyParser.json] delivers it and [res.json] sends it.
    Numbers are the integers (ids, week days, timeouts, times in ms). *)
Inductive json :=
  | JNull
  | JBool (b : bool)
  | JNum (n : Z)
  | JStr (s : string)
  | JArr (l : list json)
  | JObj (o : gmap string json).

(** A JavaScript value: [None] is [undefined]. *)
Definition jsval := option json.

(** ToBoolean. *)
Definition truthy (v : jsval) : bool :=
  match v with
  | None => false
  | Some JNull => false
  | Some (JBool b) => b
  | Some (JNum n) => negb (n =? 0)
  | Some (JStr s) => negb (String.eqb s "")
  | Some (JArr _) => true
  | Some (JObj _) => true
  end.

(** [a || b] *)
Definition js_or (a b : jsval) : jsval := if truthy a then a else b.

(** [o.k]; a property that is not there reads as [undefined]. *)
Definition get (o : json) (k : string) : jsval :=
  match o with
  | JObj m => m !! k
  | _ => None
  end.

(** An object literal as [res.json] serialises it: a property whose value is
    [undefined] is left out. *)
Definition obj (props : list (string * jsval)) : json :=
  JObj (list_to_map (omap (λ kv, pair kv.1 <$> kv.2) props)).

(** Structural equality of two JSON values, as a SQL comparison of two
    stored values needs it. *)
Fixpoint json_eqb (x y : json) : bool :=
  match x, y with
  | JNull, JNull => true
  | JBool a, JBool b => Bool.eqb a b
  | JNum a, JNum b => Z.eqb a b
  | JStr a, JStr b => String.eqb a b
  | JArr l1, JArr l2 =>
      (fix go (l1 l2 : list json) : bool :=
         match l1, l2 with
         | [], [] => true
         | a :: l1, b :: l2 => json_eqb a b && go l1 l2
         | _, _ => false
         end) l1 l2
  | JObj o1, JObj o2 =>
      map_fold (λ k v acc,
          acc && match o2 !! k with Some w => json_eqb v w | None => false end)
        true o1
      && map_fold (λ k _ acc, acc && bool_decide (is_Some (o1 !! k))) true o2
  | _, _ => false
  end.

(** The number of constructors of a JSON value. *)
Fixpoint json_size (j : json) : nat :=
  match j with
  | JArr l => S (foldr (λ x n, json_size x + n)%nat 0%nat l)
  | JObj o => S (map_fold (λ _ x n, json_size x + n)%nat 0%nat o)
  | _ => 1%nat
  end.

(** ToBoolean on a value that is a string or [undefined]. *)
Definition truthy_s (s : option string) : bool :=
  match s with
  | None => false
  | Some s => negb (String.eqb s "")
  end.

(** The separator of [split(' ')]. *)
Definition space : Ascii.ascii :=
  Ascii.Ascii false false false false false true false false.

(** [s.split(c)] for a one-character separator: every occurrence of [c]
    closes a piece, so the result has one piece more than [s] has
    separators, and the empty string splits into one empty piece. *)
Fixpoint split (c : Ascii.ascii) (s : string) : list string :=
  match s with
  | EmptyString => [EmptyString]
  | String a s' =>
      if Ascii.eqb a c then EmptyString :: split c s'
      else match split c s' with
           | [] => [String a EmptyString]
           | w :: ws => String a w :: ws
           end
  end.

(** Does [c] occur in [s]? *)
Fixpoint occurs (c : Ascii.ascii) (s : string) : bool :=
  match s with
  | EmptyString => false
  | String a s' => Ascii.eqb a c || occurs c s'
  end.

(** The text of [s] before the first occurrence of [c] (all of [s] when
    there is none). *)
Fixpoint before_first (c : Ascii.ascii) (s : string) : string :=
  match s with
  | EmptyString => EmptyString
  | String a s' => if Ascii.eqb a c then EmptyString else String a (before_first c s')
  end.

(** The text of [s] after the first occurrence of [c]. *)
Fixpoint after_first (c : Ascii.ascii) (s : string) : option string :=
  match s with
  | EmptyString => None
  | String a s' => if Ascii.eqb a c then Some s' else after_first c s'
  end.

End Js.

Import Js.

(** ** HTTP responses and middleware *)

Record response := Response { status : Z; body : json }.

(** [res.status(code).json({ error: msg })] *)
Definition error_response (code : Z) (msg : string) : response :=
  Response code (obj [("error", Some (JStr msg))]).

(** What a middleware does: it answers itself, or calls [next()]. *)
Inductive middleware_result :=
  | Next
  | Reply (r : response).

(** [app.METHOD(path, middleware, handler)]: the handler runs on the store
    only when the middleware calls [next()]. *)
Definition guarded {S : Type} (m : middleware_result)
    (handler : S → S * response) (st : S) : S * response :=
  match m with
  | Next => handler st
  | Reply r => (st, r)
  end.

(** ** The auth gate *)

Module Auth.

(** [authHeader && authHeader.split(' ')[1]] *)
Definition token_of (authHeader : option string) : option string :=
  match authHeader with
  | None => None
  | Some h => if truthy_s (Some h) then split space h !! 1%nat else Some h
  end.

(** [authMiddleware]; [secret_var] is the variable read from [process.env]
    (SERVER_SECRET or SYNC_TOKEN). *)
Definition authMiddleware (secret_var : string) (env : gmap string string)
    (authHeader : option string) : middleware_result :=
  let token := token_of authHeader in
  let expectedToken := env !! secret_var in
  if negb (truthy_s token) then
    Reply (error_response 401 "Unauthorized: No token provided")
  else if truthy_s expectedToken && negb (bool_decide (token = expectedToken)) then
    Reply (error_response 403 "Forbidden: Invalid token")
  else Next.

End Auth.

(** ** The PostgreSQL variants *)

Module Pg.

(** [Full] is [server.js] (SERVER_SECRET, the kiosk settings columns);
    [Basic] is its earlier copy (SYNC_TOKEN, four settings columns). *)
Inductive flavour := Full | Basic.

Definition secret_var (f : flavour) : string :=
  match f with
  | Full => "SERVER_SECRET"
  | Basic => "SYNC_TOKEN"
  end.

(** *** The tables of [initDB] *)

Inductive sqltype :=
  | VARCHAR (n : Z) | TEXT | BOOLEAN | INTEGER | TIMESTAMP | JSONB.

Inductive default_expr :=
  | NoDefault
  | DEFAULT (v : json)
  | DEFAULT_CURRENT_TIMESTAMP.

Record column := Column {
  col_name : string;
  col_type : sqltype;
  col_primary_key : bool;
  col_not_null : bool;
  col_default : default_expr
}.

Definition employees_ddl : list column :=
  [ Column "id" (VARCHAR 100) true false NoDefault;
    Column "name" (VARCHAR 255) false true NoDefault;
    Column "pin" (VARCHAR 50) false true NoDefault;
    Column "image_url" TEXT false false NoDefault;
    Column "archived" BOOLEAN false false (DEFAULT (JBool false));
    Column "auto_deduct_lunch" BOOLEAN false false (DEFAULT (JBool false));
    Column "location_id" (VARCHAR 100) false false NoDefault;
    Column "department_id" (VARCHAR 100) false false NoDefault;
    Column "is_temp" BOOLEAN false false (DEFAULT (JBool false));
    Column "temp_agency" (VARCHAR 255) false false NoDefault;
    Column "created_at" TIMESTAMP false false DEFAULT_CURRENT_TIMESTAMP;
    Column "updated_at" TIMESTAMP false false DEFAULT_CURRENT_TIMESTAMP ].

Definition timerecords_ddl : list column :=
  [ Column "id" (VARCHAR 100) true false NoDefault;
    Column "employee_id" (VARCHAR 100) false true NoDefault;
    Column "location_id" (VARCHAR 100) false false NoDefault;
    Column "clock_in" TIMESTAMP false true NoDefault;
    Column "clock_out" TIMESTAMP false false NoDefault;
    Column "breaks" JSONB false false (DEFAULT (JArr []));
    Column "created_at" TIMESTAMP false false DEFAULT_CURRENT_TIMESTAMP;
    Column "updated_at" TIMESTAMP false false DEFAULT_CURRENT_TIMESTAMP ].

Definition locations_ddl : list column :=
  [ Column "id" (VARCHAR 100) true false NoDefault;
    Column "name" (VARCHAR 255) false true NoDefault;
    Column "abbreviation" (VARCHAR 50) false false NoDefault;
    Column "created_at" TIMESTAMP false false DEFAULT_CURRENT_TIMESTAMP ].

Definition departments_ddl : list column :=
  [ Column "id" (VARCHAR 100) true false NoDefault;
    Column "name" (VARCHAR 255) false true NoDefault;
    Column "created_at" TIMESTAMP false false DEFAULT_CURRENT_TIMESTAMP ].

Definition settings_ddl (f : flavour) : list column :=
  [ Column "id" (VARCHAR 100) true false NoDefault;
    Column "logo_url" TEXT false false NoDefault;
    Column "week_start_day" INTEGER false false (DEFAULT (JNum 0));
    Column "remote_db_url" TEXT false false NoDefault ]
  ++ match f with
     | Full =>
         [ Column "enable_screen_saver" BOOLEAN false false (DEFAULT (JBool true));
           Column "kiosk_location_id" (VARCHAR 100) false false NoDefault;
           Column "clock_format" (VARCHAR 10) false false (DEFAULT (JStr "12"));
           Column "allow_employee_photo_upload" BOOLEAN false false (DEFAULT (JBool false));
           Column "timeout_status" INTEGER false false (DEFAULT (JNum 7));
           Column "timeout_timecard" INTEGER false false (DEFAULT (JNum 15));
           Column "timeout_confirmation" INTEGER false false (DEFAULT (JNum 7));
           Column "timeout_admin_dashboard" INTEGER false false (DEFAULT (JNum 60));
           Column "timeout_admin_login" INTEGER false false (DEFAULT (JNum 10)) ]
     | Basic => []
     end
  ++ [ Column "created_at" TIMESTAMP false false DEFAULT_CURRENT_TIMESTAMP;
       Column "updated_at" TIMESTAMP false false DEFAULT_CURRENT_TIMESTAMP ].

Definition ddl (f : flavour) (relation : string) : list column :=
  if String.eqb relation "employees" then employees_ddl
  else if String.eqb relation "timerecords" then timerecords_ddl
  else if String.eqb relation "locations" then locations_ddl
  else if String.eqb relation "departments" then departments_ddl
  else if String.eqb relation "settings" then settings_ddl f
  else [].

(** *** The engine, as far as the statements of the source use it

    A row maps column names to values (SQL NULL is [JNull]); a table is the
    list of its rows; the database maps relation names to tables.  [initDB]
    creates the five tables before the server listens, so a relation that was
    never written reads as the empty table.

    A column holds a bound value as it is bound, and two ids are the same id
    when they are the same value.  That is what PostgreSQL does for NULL, a
    string that fits its VARCHAR, a 32-bit integer in an INTEGER column and a
    boolean in a BOOLEAN column.  What it does with other values (a number
    bound into a VARCHAR is stored as its text, a TIMESTAMP comes back in the
    driver's rendering, a string too long or an integer out of range is an
    error) is not modelled: a statement that depends on it has a string id,
    or the condition [fits], among its hypotheses. *)

Abbreviation row := (gmap string json).
Abbreviation table := (list (gmap string json)).
Abbreviation database := (gmap string (list (gmap string json))).

Definition table_of (d : database) (relation : string) : table :=
  default [] (d !! relation).

Inductive sql_error :=
  | NotNullViolation (relation col : string)
  | UniqueViolation (constraint : string)
  | NoQuery.

Definition dquote : string :=
  String (Ascii.Ascii false true false false false true false false) EmptyString.

(** [err.message] *)
Definition message (e : sql_error) : string :=
  match e with
  | NotNullViolation relation col =>
      "null value in column " +:+ dquote +:+ col +:+ dquote +:+ " of relation "
        +:+ dquote +:+ relation +:+ dquote +:+ " violates not-null constraint"
  | UniqueViolation constraint =>
      "duplicate key value violates unique constraint "
        +:+ dquote +:+ constraint +:+ dquote
  | NoQuery => "Client was passed a null or undefined query"
  end.

Definition is_null (v : json) : bool :=
  match v with JNull => true | _ => false end.

Definition value_of (r : row) (col : string) : json := default JNull (r !! col).

(** A bound parameter: the driver sends [undefined] as NULL. *)
Definition bind (v : jsval) : json := default JNull v.

Definition eval_default (now : Z) (d : default_expr) : json :=
  match d with
  | NoDefault => JNull
  | DEFAULT v => v
  | DEFAULT_CURRENT_TIMESTAMP => JNum now
  end.

(** The row that [INSERT INTO t (cols) VALUES (vals)] proposes: the listed
    columns take the bound values, the others their defaults. *)
Definition new_row (cols_ddl : list column) (now : Z)
    (cols : list string) (vals : list json) : row :=
  list_to_map (zip cols vals)
  ∪ list_to_map ((λ c, (col_name c, eval_default now (col_default c))) <$> cols_ddl).

(** The first NOT NULL (or PRIMARY KEY) column that holds NULL. *)
Definition null_violation (cols_ddl : list column) (r : row) : option string :=
  col_name <$>
    List.find (λ c, (col_primary_key c || col_not_null c)
                    && is_null (value_of r (col_name c))) cols_ddl.

(** [id = v], which NULL never satisfies. *)
Definition has_id (v : json) (r : row) : bool :=
  negb (is_null v) && json_eqb (value_of r "id") v.

(** [INSERT INTO relation (cols) VALUES (vals) RETURNING *] *)
Definition insert_into (relation : string) (cols_ddl : list column) (now : Z)
    (cols : list string) (vals : list json) (t : table)
    : sql_error + table * list row :=
  let r := new_row cols_ddl now cols vals in
  match null_violation cols_ddl r with
  | Some c => inl (NotNullViolation relation c)
  | None =>
      if existsb (has_id (value_of r "id")) t
      then inl (UniqueViolation (relation +:+ "_pkey"))
      else inr (t ++ [r], [r])
  end.

Inductive set_expr :=
  | EXCLUDED (col : string)
  | CURRENT_TIMESTAMP.

(** [DO UPDATE SET col = expr, ..] on the row [old], the proposed row being
    [excluded]. *)
Definition do_update (now : Z) (sets : list (string * set_expr))
    (excluded old : row) : row :=
  foldl (λ acc a,
      <[a.1 := match a.2 with
               | EXCLUDED c => value_of excluded c
               | CURRENT_TIMESTAMP => JNum now
               end]> acc) old sets.

(** [INSERT INTO relation (cols) VALUES (vals)
     ON CONFLICT (id) DO UPDATE SET sets RETURNING *] *)
Definition insert_on_conflict_update (relation : string) (cols_ddl : list column)
    (now : Z) (cols : list string) (vals : list json)
    (sets : list (string * set_expr)) (t : table)
    : sql_error + table * list row :=
  let r := new_row cols_ddl now cols vals in
  match null_violation cols_ddl r with
  | Some c => inl (NotNullViolation relation c)
  | None =>
      let id := value_of r "id" in
      if existsb (has_id id) t then
        let t' := (λ old, if has_id id old then do_update now sets r old else old) <$> t in
        inr (t', List.filter (has_id id) t')
      else inr (t ++ [r], [r])
  end.

(** [INSERT INTO relation (cols) VALUES (vals) ON CONFLICT (id) DO NOTHING] *)
Definition insert_on_conflict_nothing (relation : string) (cols_ddl : list column)
    (now : Z) (cols : list string) (vals : list json) (t : table)
    : sql_error + table :=
  let r := new_row cols_ddl now cols vals in
  match null_violation cols_ddl r with
  | Some c => inl (NotNullViolation relation c)
  | None =>
      if existsb (has_id (value_of r "id")) t then inr t else inr (t ++ [r])
  end.

(** [SELECT * FROM relation WHERE id = $1] *)
Definition select_by_id (id : json) (t : table) : list row :=
  List.filter (has_id id) t.

(** [DELETE FROM relation WHERE id = $1 RETURNING *] *)
Definition delete_by_id (id : json) (t : table) : table * list row :=
  (List.filter (λ r, negb (has_id id r)) t, List.filter (has_id id) t).

(** *** [dbToApi] and the handlers *)

Definition validCollections : list string :=
  ["employees"; "timerecords"; "locations"; "departments"; "settings"].

(** [validCollections.includes(collection)] *)
Definition includes (l : list string) (x : string) : bool :=
  existsb (String.eqb x) l.

(** [dbToApi(row, collection)]; [row.col] is [row !! col]. *)
Definition dbToApi (f : flavour) (row : option row) (collection : string) : json :=
  match row with
  | None => JNull
  | Some row =>
      if String.eqb collection "employees" then
        obj [ ("id", row !! "id");
              ("name", row !! "name");
              ("pin", row !! "pin");
              ("imageUrl", row !! "image_url");
              ("archived", row !! "archived");
              ("autoDeductLunch", row !! "auto_deduct_lunch");
              ("locationId", row !! "location_id");
              ("departmentId", row !! "department_id");
              ("isTemp", row !! "is_temp");
              ("tempAgency", row !! "temp_agency") ]
      else if String.eqb collection "timerecords" then
        obj [ ("id", row !! "id");
              ("employeeId", row !! "employee_id");
              ("locationId", row !! "location_id");
              ("clockIn", row !! "clock_in");
              ("clockOut", row !! "clock_out");
              ("breaks", js_or (row !! "breaks") (Some (JArr []))) ]
      else if String.eqb collection "locations" then
        obj [ ("id", row !! "id");
              ("name", row !! "name");
              ("abbreviation", row !! "abbreviation") ]
      else if String.eqb collection "departments" then
        obj [ ("id", row !! "id");
              ("name", row !! "name") ]
      else if String.eqb collection "settings" then
        match f with
        | Full =>
            obj [ ("id", row !! "id");
                  ("logoUrl", row !! "logo_url");
                  ("weekStartDay", row !! "week_start_day");
                  ("remoteDbUrl", row !! "remote_db_url");
                  ("enableScreenSaver", row !! "enable_screen_saver");
                  ("kioskLocationId", row !! "kiosk_location_id");
                  ("clockFormat", row !! "clock_format");
                  ("allowEmployeePhotoUpload", row !! "allow_employee_photo_upload");
                  ("timeoutStatus", row !! "timeout_status");
                  ("timeoutTimecard", row !! "timeout_timecard");
                  ("timeoutConfirmation", row !! "timeout_confirmation");
                  ("timeoutAdminDashboard", row !! "timeout_admin_dashboard");
                  ("timeoutAdminLogin", row !! "timeout_admin_login") ]
        | Basic =>
            obj [ ("id", row !! "id");
                  ("logoUrl", row !! "logo_url");
                  ("weekStartDay", row !! "week_start_day");
                  ("remoteDbUrl", row !! "remote_db_url") ]
        end
      else JObj row
  end.

(** [JSON.stringify(v)] bound to a JSONB column: the column holds the
    document that the text denotes. *)
Definition JSON_stringify (v : jsval) : jsval := v.

(** The column list and the [values] array of the INSERT that the POST and
    the PUT handler build for [collection]; the two handlers differ in the
    first value only ([data.id] and [data.id || id]), passed here as [id].
    [None]: no branch assigns [query]. *)
Definition insert_statement (f : flavour) (collection : string) (id : jsval)
    (data : json) : option (list string * list jsval) :=
  if String.eqb collection "employees" then
    Some ( [ "id"; "name"; "pin"; "image_url"; "archived"; "auto_deduct_lunch";
             "location_id"; "department_id"; "is_temp"; "temp_agency" ],
           [ id; get data "name"; get data "pin"; get data "imageUrl";
             js_or (get data "archived") (Some (JBool false));
             js_or (get data "autoDeductLunch") (Some (JBool false));
             get data "locationId"; get data "departmentId";
             js_or (get data "isTemp") (Some (JBool false));
             get data "tempAgency" ] )
  else if String.eqb collection "timerecords" then
    Some ( [ "id"; "employee_id"; "location_id"; "clock_in"; "clock_out"; "breaks" ],
           [ id; get data "employeeId"; get data "locationId"; get data "clockIn";
             get data "clockOut";
             JSON_stringify (js_or (get data "breaks") (Some (JArr []))) ] )
  else if String.eqb collection "locations" then
    Some ( [ "id"; "name"; "abbreviation" ],
           [ id; get data "name"; get data "abbreviation" ] )
  else if String.eqb collection "departments" then
    Some ( [ "id"; "name" ], [ id; get data "name" ] )
  else if String.eqb collection "settings" then
    match f with
    | Full =>
        Some ( [ "id"; "logo_url"; "week_start_day"; "remote_db_url";
                 "enable_screen_saver"; "kiosk_location_id"; "clock_format";
                 "allow_employee_photo_upload"; "timeout_status"; "timeout_timecard";
                 "timeout_confirmation"; "timeout_admin_dashboard"; "timeout_admin_login" ],
               [ id; get data "logoUrl"; get data "weekStartDay"; get data "remoteDbUrl";
                 get data "enableScreenSaver"; get data "kioskLocationId";
                 get data "clockFormat"; get data "allowEmployeePhotoUpload";
                 get data "timeoutStatus"; get data "timeoutTimecard";
                 get data "timeoutConfirmation"; get data "timeoutAdminDashboard";
                 get data "timeoutAdminLogin" ] )
    | Basic =>
        Some ( [ "id"; "logo_url"; "week_start_day"; "remote_db_url" ],
               [ id; get data "logoUrl"; get data "weekStartDay"; get data "remoteDbUrl" ] )
    end
  else None.

(** The [DO UPDATE SET] list of the PUT handler's statement. *)
Definition conflict_sets (f : flavour) (collection : string) : list (string * set_expr) :=
  if String.eqb collection "employees" then
    [ ("name", EXCLUDED "name"); ("pin", EXCLUDED "pin");
      ("image_url", EXCLUDED "image_url"); ("archived", EXCLUDED "archived");
      ("auto_deduct_lunch", EXCLUDED "auto_deduct_lunch");
      ("location_id", EXCLUDED "location_id");
      ("department_id", EXCLUDED "department_id");
      ("is_temp", EXCLUDED "is_temp"); ("temp_agency", EXCLUDED "temp_agency");
      ("updated_at", CURRENT_TIMESTAMP) ]
  else if String.eqb collection "timerecords" then
    [ ("employee_id", EXCLUDED "employee_id"); ("location_id", EXCLUDED "location_id");
      ("clock_in", EXCLUDED "clock_in"); ("clock_out", EXCLUDED "clock_out");
      ("breaks", EXCLUDED "breaks"); ("updated_at", CURRENT_TIMESTAMP) ]
  else if String.eqb collection "locations" then
    [ ("name", EXCLUDED "name"); ("abbreviation", EXCLUDED "abbreviation") ]
  else if String.eqb collection "departments" then
    [ ("name", EXCLUDED "name") ]
  else if String.eqb collection "settings" then
    match f with
    | Full =>
        [ ("logo_url", EXCLUDED "logo_url");
          ("week_start_day", EXCLUDED "week_start_day");
          ("remote_db_url", EXCLUDED "remote_db_url");
          ("enable_screen_saver", EXCLUDED "enable_screen_saver");
          ("kiosk_location_id", EXCLUDED "kiosk_location_id");
          ("clock_format", EXCLUDED "clock_format");
          ("allow_employee_photo_upload", EXCLUDED "allow_employee_photo_upload");
          ("timeout_status", EXCLUDED "timeout_status");
          ("timeout_timecard", EXCLUDED "timeout_timecard");
          ("timeout_confirmation", EXCLUDED "timeout_confirmation");
          ("timeout_admin_dashboard", EXCLUDED "timeout_admin_dashboard");
          ("timeout_admin_login", EXCLUDED "timeout_admin_login");
          ("updated_at", CURRENT_TIMESTAMP) ]
    | Basic =>
        [ ("logo_url", EXCLUDED "logo_url");
          ("week_start_day", EXCLUDED "week_start_day");
          ("remote_db_url", EXCLUDED "remote_db_url");
          ("updated_at", CURRENT_TIMESTAMP) ]
    end
  else [].

Definition ok (code : Z) (b : json) : response := Response code b.

(** [catch (err) { res.status(500).json({ error: err.message }) }] *)
Definition caught (e : sql_error) : response := error_response 500 (message e).

Definition collection_not_found : response :=
  error_response 404 "Collection not found".

Definition document_not_found : response :=
  error_response 404 "Document not found".

(** [app.get('/:collection', ..)] *)
Definition get_all (f : flavour) (d : database) (collection : string) : response :=
  if negb (includes validCollections collection) then collection_not_found
  else ok 200 (JArr ((λ r, dbToApi f (Some r) collection) <$> table_of d collection)).

(** [app.get('/:collection/:id', ..)] *)
Definition get_one (f : flavour) (d : database) (collection id : string) : response :=
  if negb (includes validCollections collection) then collection_not_found
  else
    let rows := select_by_id (JStr id) (table_of d collection) in
    match rows with
    | [] => document_not_found
    | r :: _ => ok 200 (dbToApi f (Some r) collection)
    end.

(** [app.post('/:collection', ..)] *)
Definition post (f : flavour) (now : Z) (d : database) (collection : string)
    (data : json) : database * response :=
  if negb (includes validCollections collection) then (d, collection_not_found)
  else
    match insert_statement f collection (get data "id") data with
    | None => (d, caught NoQuery)
    | Some (cols, values) =>
        match insert_into collection (ddl f collection) now cols (bind <$> values)
                (table_of d collection) with
        | inl err => (d, caught err)
        | inr (t, rows) =>
            (<[collection := t]> d, ok 201 (dbToApi f (head rows) collection))
        end
    end.

(** [app.put('/:collection/:id', ..)] *)
Definition put (f : flavour) (now : Z) (d : database) (collection id : string)
    (data : json) : database * response :=
  if negb (includes validCollections collection) then (d, collection_not_found)
  else
    match insert_statement f collection
            (js_or (get data "id") (Some (JStr id))) data with
    | None => (d, caught NoQuery)
    | Some (cols, values) =>
        match insert_on_conflict_update collection (ddl f collection) now cols
                (bind <$> values) (conflict_sets f collection)
                (table_of d collection) with
        | inl err => (d, caught err)
        | inr (t, rows) =>
            (<[collection := t]> d, ok 200 (dbToApi f (head rows) collection))
        end
    end.

(** [app.delete('/:collection/:id', ..)] *)
Definition delete_one (f : flavour) (d : database) (collection id : string)
    : database * response :=
  if negb (includes validCollections collection) then (d, collection_not_found)
  else
    let '(t, rows) := delete_by_id (JStr id) (table_of d collection) in
    match rows with
    | [] => (d, document_not_found)
    | _ :: _ => (<[collection := t]> d, ok 200 (obj [("ok", Some (JBool true))]))
    end.

(** The data routes, each registered behind [authMiddleware]. *)
Inductive endpoint :=
  | GET_all (collection : string)
  | GET_one (collection id : string)
  | POST (collection : string) (data : json)
  | PUT (collection id : string) (data : json)
  | DELETE (collection id : string).

Definition handle (f : flavour) (now : Z) (e : endpoint) (d : database)
    : database * response :=
  match e with
  | GET_all c => (d, get_all f d c)
  | GET_one c id => (d, get_one f d c id)
  | POST c data => post f now d c data
  | PUT c id data => put f now d c id data
  | DELETE c id => delete_one f d c id
  end.

(** A request to a data route: the auth gate, then the handler. *)
Definition serve (f : flavour) (env : gmap string string) (now : Z)
    (authorization : option string) (e : endpoint) (d : database)
    : database * response :=
  guarded (Auth.authMiddleware (secret_var f) env authorization)
    (handle f now e) d.

(** *** The seed of [initDB] *)

(** [INSERT INTO relation (cols) VALUES (..), (..) ON CONFLICT (id) DO NOTHING] *)
Definition seed (f : flavour) (now : Z) (relation : string) (cols : list string)
    (rows : list (list json)) (d : sql_error + database) : sql_error + database :=
  match d with
  | inl e => inl e
  | inr d =>
      match foldl (λ acc vals,
                match acc with
                | inl e => inl e
                | inr t => insert_on_conflict_nothing relation (ddl f relation) now cols vals t
                end) (inr (table_of d relation)) rows with
      | inl e => inl e
      | inr t => inr (<[relation := t]> d)
      end
  end.

(** [ALTER TABLE .. ADD COLUMN IF NOT EXISTS c ..]: a row has the column
    when it holds a value, NULL included, under its name; a row that has it
    not takes the default of the column (NULL where none is declared). *)
Definition add_column (now : Z) (c : column) (r : row) : row :=
  match r !! col_name c with
  | Some _ => r
  | None => <[col_name c := eval_default now (col_default c)]> r
  end.

Definition add_column_if_not_exists (now : Z) (c : column) (t : table) : table :=
  add_column now c <$> t.

(** The columns that the migrations of [server.js] add to [settings]; the
    earlier server has no migration. *)
Definition migrations (f : flavour) : list column :=
  match f with
  | Full =>
      [ Column "enable_screen_saver" BOOLEAN false false (DEFAULT (JBool true));
        Column "kiosk_location_id" (VARCHAR 100) false false NoDefault;
        Column "clock_format" (VARCHAR 10) false false (DEFAULT (JStr "12"));
        Column "allow_employee_photo_upload" BOOLEAN false false (DEFAULT (JBool false));
        Column "timeout_status" INTEGER false false (DEFAULT (JNum 7));
        Column "timeout_timecard" INTEGER false false (DEFAULT (JNum 15));
        Column "timeout_confirmation" INTEGER false false (DEFAULT (JNum 7));
        Column "timeout_admin_dashboard" INTEGER false false (DEFAULT (JNum 60));
        Column "timeout_admin_login" INTEGER false false (DEFAULT (JNum 10)) ]
  | Basic => []
  end.

Definition migrate (f : flavour) (now : Z) (d : database) : database :=
  alter (λ t, foldl (λ t c, add_column_if_not_exists now c t) t (migrations f))
    "settings" d.

(** [initDB], after the tables exist: the migrations, then the seed of the
    sample rows when there is no employee. *)
Definition initDB (f : flavour) (now : Z) (d : database) : sql_error + database :=
  let d := migrate f now d in
  if Nat.eqb (length (table_of d "employees")) 0 then
    seed f now "settings" ["id"; "week_start_day"; "logo_url"; "remote_db_url"]
      [ [JStr "GLOBAL_SETTINGS"; JNum 0; JStr ""; JStr ""] ]
    (seed f now "departments" ["id"; "name"]
      [ [JStr "DEP001"; JStr "Engineering"];
        [JStr "DEP002"; JStr "Operations"] ]
    (seed f now "locations" ["id"; "name"; "abbreviation"]
      [ [JStr "LOC001"; JStr "Main Office"; JStr "MO"];
        [JStr "LOC002"; JStr "Warehouse"; JStr "WH"] ]
    (seed f now "employees" ["id"; "name"; "pin"; "archived"]
      [ [JStr "EMP001"; JStr "Alice Johnson"; JStr "1234"; JBool false];
        [JStr "EMP002"; JStr "Bob Smith"; JStr "5678"; JBool false];
        [JStr "EMP003"; JStr "Charlie Brown"; JStr "1111"; JBool false] ]
      (inr d))))
  else inr d.

(** The database of a first start, seeded at time [0]. *)
Definition seeded (f : flavour) : database :=
  match initDB f 0 ∅ with
  | inr d => d
  | inl _ => ∅
  end.

End Pg.

(** ** The RxDB variants

    The database object and the collection methods belong to the RxDB
    library; they are modelled as far as the handlers use them, for the
    documents that the clients of the server send: the primary key [id] is a
    non-empty string and the document has none of the fields that RxDB keeps
    for itself ([client_doc] below).  For these a collection is a map from
    primary key to document and [toJSON()] is the document as stored.  What
    RxDB does with other documents ([insert] takes a document without an
    id, [upsert] one whose id is a number) and the text of its error messages
    are not modelled: the model refuses such a document, an error of RxDB
    carries its code, and a statement that depends on either has
    [client_doc], or a missing id, among its hypotheses. *)

Module Rx.

(** What [db[name]] can be: RxDB gives the database object one property per
    collection, next to the members the object has anyway. *)
Inductive member :=
  | Collection (docs : gmap string json)
  | Method.

Abbreviation rxdatabase := (gmap string member).

(** [createRxDatabase(..)]: of the members of the fresh database object, the
    model has the one the source itself calls, [db.addCollections]. *)
Definition createRxDatabase : rxdatabase := {[ "addCollections" := Method ]}.

(** [db.addCollections({ name: { schema }, .. })] *)
Definition addCollections (names : list string) (db : rxdatabase) : rxdatabase :=
  foldr (λ name acc, <[name := Collection ∅]> acc) db names.

(** [initDB] of the REST server. *)
Definition initDB_rest : rxdatabase :=
  addCollections ["employees"; "timerecords"; "locations"; "departments"; "settings"]
    createRxDatabase.

(** [initDB] of the sync server. *)
Definition initDB_sync : rxdatabase :=
  addCollections ["employees"; "time_records"; "locations"; "departments"; "settings"]
    createRxDatabase.

Inductive failure :=
  | TypeError (msg : string)
  | PrimaryMissing
  | Conflict (id : string).

(** [err.message]; for an error that RxDB raises, its code. *)
Definition message (e : failure) : string :=
  match e with
  | TypeError msg => msg
  | PrimaryMissing => "RxDB Error-Code COL3"
  | Conflict _ => "RxDB Error-Code CONFLICT"
  end.

(** The primary key of a document: its [id], a non-empty string. *)
Definition primary (doc : json) : option string :=
  match get doc "id" with
  | Some (JStr s) => if String.eqb s "" then None else Some s
  | _ => None
  end.

(** [collection.find().exec()], then [toJSON()] on each document. *)
Definition find (docs : gmap string json) : list json :=
  (map_to_list docs).*2.

(** [collection.findOne(id).exec()] *)
Definition findOne (docs : gmap string json) (id : string) : option json :=
  docs !! id.

(** [collection.insert(doc)] *)
Definition insert_doc (docs : gmap string json) (doc : json)
    : failure + gmap string json * json :=
  match primary doc with
  | None => inl PrimaryMissing
  | Some id =>
      match docs !! id with
      | Some _ => inl (Conflict id)
      | None => inr (<[id := doc]> docs, doc)
      end
  end.

(** [collection.upsert(doc)] *)
Definition upsert_doc (docs : gmap string json) (doc : json)
    : failure + gmap string json * json :=
  match primary doc with
  | None => inl PrimaryMissing
  | Some id => inr (<[id := doc]> docs, doc)
  end.

(** [doc.remove()] *)
Definition remove (docs : gmap string json) (id : string) : gmap string json :=
  base.delete id docs.

Definition caught (e : failure) : response := error_response 500 (message e).

Definition collection_not_found : response :=
  error_response 404 "Collection not found".

Definition document_not_found : response :=
  error_response 404 "Document not found".

(** [db[collection].m(..)] on a member that is not a collection. *)
Definition not_a_function (m : string) : failure :=
  TypeError ("db[collection]." +:+ m +:+ " is not a function").

(** [db && db[collection]]: [None] when [!db || !db[collection]].  The global
    [db] is [undefined] until [initDB] has resolved. *)
Definition lookup_member (db : option rxdatabase) (collection : string)
    : option member :=
  match db with
  | None => None
  | Some d => d !! collection
  end.

(** *** The REST server *)

(** [app.get('/:collection', ..)] *)
Definition get_all (db : option rxdatabase) (collection : string) : response :=
  match lookup_member db collection with
  | None => collection_not_found
  | Some Method => caught (not_a_function "find")
  | Some (Collection docs) => Response 200 (JArr (find docs))
  end.

(** [app.get('/:collection/:id', ..)] *)
Definition get_one (db : option rxdatabase) (collection id : string) : response :=
  match lookup_member db collection with
  | None => collection_not_found
  | Some Method => caught (not_a_function "findOne")
  | Some (Collection docs) =>
      match findOne docs id with
      | None => document_not_found
      | Some doc => Response 200 doc
      end
  end.

Definition store (db : option rxdatabase) (collection : string)
    (docs : gmap string json) : option rxdatabase :=
  <[collection := Collection docs]> <$> db.

(** [app.post('/:collection', ..)] *)
Definition post (db : option rxdatabase) (collection : string) (data : json)
    : option rxdatabase * response :=
  match lookup_member db collection with
  | None => (db, collection_not_found)
  | Some Method => (db, caught (not_a_function "insert"))
  | Some (Collection docs) =>
      match insert_doc docs data with
      | inl err => (db, caught err)
      | inr (docs', doc) => (store db collection docs', Response 201 doc)
      end
  end.

(** [app.put('/:collection/:id', ..)]; the path id is not used. *)
Definition put (db : option rxdatabase) (collection id : string) (data : json)
    : option rxdatabase * response :=
  match lookup_member db collection with
  | None => (db, collection_not_found)
  | Some Method => (db, caught (not_a_function "upsert"))
  | Some (Collection docs) =>
      match upsert_doc docs data with
      | inl err => (db, caught err)
      | inr (docs', doc) => (store db collection docs', Response 200 doc)
      end
  end.

(** [app.delete('/:collection/:id', ..)] *)
Definition delete_one (db : option rxdatabase) (collection id : string)
    : option rxdatabase * response :=
  match lookup_member db collection with
  | None => (db, collection_not_found)
  | Some Method => (db, caught (not_a_function "findOne"))
  | Some (Collection docs) =>
      match findOne docs id with
      | Some _ =>
          (store db collection (remove docs id),
           Response 200 (obj [("ok", Some (JBool true))]))
      | None => (db, document_not_found)
      end
  end.

Inductive endpoint :=
  | GET_all (collection : string)
  | GET_one (collection id : string)
  | POST (collection : string) (data : json)
  | PUT (collection id : string) (data : json)
  | DELETE (collection id : string).

Definition handle (e : endpoint) (db : option rxdatabase)
    : option rxdatabase * response :=
  match e with
  | GET_all c => (db, get_all db c)
  | GET_one c id => (db, get_one db c id)
  | POST c data => post db c data
  | PUT c id data => put db c id data
  | DELETE c id => delete_one db c id
  end.

(** A request to a data route of the REST server; its secret is SYNC_TOKEN. *)
Definition serve (env : gmap string string) (authorization : option string)
    (e : endpoint) (db : option rxdatabase) : option rxdatabase * response :=
  guarded (Auth.authMiddleware "SYNC_TOKEN" env authorization) (handle e) db.

(** *** The sync server (no auth middleware) *)

(** What becomes of a request: a response, or an exception thrown outside
    the handler's [try], after which no response is sent. *)
Inductive outcome :=
  | Sent (r : response)
  | Thrown (e : failure).

Definition cannot_read (collection : string) : failure :=
  TypeError ("Cannot read properties of undefined (reading '"
             +:+ collection +:+ "')").

(** [app.post('/sync/:collection/pull', ..)]; [now] is
    [new Date().getTime()]. *)
Definition sync_pull (now : Z) (db : option rxdatabase) (collection : string)
    (reqbody : json) : outcome :=
  let checkpoint := get reqbody "checkpoint" in
  let limit := get reqbody "limit" in
  match db with
  | None => Thrown (cannot_read collection)
  | Some d =>
      match d !! collection with
      | None => Sent collection_not_found
      | Some m =>
          let minUpdatedAt :=
            if truthy checkpoint then checkpoint ≫= (λ c, get c "updatedAt")
            else Some (JNum 0) in
          let lastId :=
            if truthy checkpoint then checkpoint ≫= (λ c, get c "id")
            else Some (JStr "") in
          match m with
          | Method => Sent (caught (not_a_function "find"))
          | Collection stored =>
              let docs := find stored in
              let lastDoc := last docs in
              let newCheckpoint :=
                match lastDoc with
                | Some doc => Some (obj [("id", get doc "id"); ("updatedAt", Some (JNum now))])
                | None => checkpoint
                end in
              Sent (Response 200 (obj [("documents", Some (JArr docs));
                                       ("checkpoint", newCheckpoint)]))
          end
      end
  end.

(** [changes.map(c => c.newDocumentState || c)]; reading a property of
    [null] throws, and so does [map] on a body that is not an array. *)
Definition pushed_docs (changes : json) : failure + list json :=
  match changes with
  | JArr l =>
      foldr (λ c acc,
          match acc with
          | inl e => inl e
          | inr docs =>
              match c with
              | JNull => inl (TypeError "Cannot read properties of null (reading 'newDocumentState')")
              | _ => inr (default c (js_or (get c "newDocumentState") (Some c)) :: docs)
              end
          end) (inr []) l
  | _ => inl (TypeError "changes.map is not a function")
  end.

(** [for (const doc of docs) await db[collection].upsert(doc)]: the
    documents written before a failure stay written. *)
Fixpoint upsert_all (stored : gmap string json) (docs : list json)
    : gmap string json * option failure :=
  match docs with
  | [] => (stored, None)
  | doc :: rest =>
      match upsert_doc stored doc with
      | inl e => (stored, Some e)
      | inr (stored', _) => upsert_all stored' rest
      end
  end.

(** [app.post('/sync/:collection/push', ..)] *)
Definition sync_push (db : option rxdatabase) (collection : string)
    (changes : json) : option rxdatabase * outcome :=
  match db with
  | None => (db, Thrown (cannot_read collection))
  | Some d =>
      match d !! collection with
      | None => (db, Sent collection_not_found)
      | Some m =>
          match pushed_docs changes with
          | inl e => (db, Sent (caught e))
          | inr docs =>
              match m, docs with
              | _, [] => (db, Sent (Response 200 (obj [("ok", Some (JBool true))])))
              | Method, _ :: _ => (db, Sent (caught (not_a_function "upsert")))
              | Collection stored, _ =>
                  match upsert_all stored docs with
                  | (stored', Some e) => (store db collection stored', Sent (caught e))
                  | (stored', None) =>
                      (store db collection stored',
                       Sent (Response 200 (obj [("ok", Some (JBool true))])))
                  end
              end
          end
      end
  end.

End Rx.

(** * Vocabulary of the statements *)

(** The status and two properties of what a sync request produced. *)
Definition status_of (o : Rx.outcome) : option Z :=
  match o with
  | Rx.Sent r => Some (status r)
  | Rx.Thrown _ => None
  end.

Definition documents_of (o : Rx.outcome) : jsval :=
  match o with
  | Rx.Sent r => get (body r) "documents"
  | Rx.Thrown _ => None
  end.

Definition checkpoint_of (o : Rx.outcome) : jsval :=
  match o with
  | Rx.Sent r => get (body r) "checkpoint"
  | Rx.Thrown _ => None
  end.

(** The collection a data route of the PostgreSQL servers names. *)
Definition collection_of (e : Pg.endpoint) : string :=
  match e with
  | Pg.GET_all c | Pg.GET_one c _ | Pg.POST c _ | Pg.PUT c _ _ | Pg.DELETE c _ => c
  end.

(** The wire record of a stored row. *)
Definition wire (f : Pg.flavour) (c : string) (r : gmap string json) : json :=
  Pg.dbToApi f (Some r) c.


(** The value that [DO UPDATE SET sets] assigns to column [k], if any. *)
Fixpoint assigned (now : Z) (sets : list (string * Pg.set_expr))
    (excluded : gmap string json) (k : string) : option json :=
  match sets with
  | [] => None
  | a :: rest =>
      match assigned now rest excluded k with
      | Some v => Some v
      | None =>
          if String.eqb a.1 k
          then Some match a.2 with
                    | Pg.EXCLUDED c => Pg.value_of excluded c
                    | Pg.CURRENT_TIMESTAMP => JNum now
                    end
          else None
      end
  end.

(** What the handlers' statements have in common, for every collection. *)
Record statement_facts (f : Pg.flavour) (c : string) (idv : jsval)
    (R : Z → gmap string json) : Prop := {
  sf_id : ∀ now, R now !! "id" = Some (Pg.bind idv);
  sf_null : ∀ now now',
    Pg.null_violation (Pg.ddl f c) (R now) = Pg.null_violation (Pg.ddl f c) (R now');
  sf_key : ∀ now,
    Pg.null_violation (Pg.ddl f c) (R now) = None → Pg.is_null (Pg.bind idv) = false;
  sf_wire : ∀ now now',
    Pg.dbToApi f (Some (R now)) c = Pg.dbToApi f (Some (R now')) c;
  sf_update : ∀ now now' old,
    old !! "id" = Some (Pg.bind idv) →
    Pg.dbToApi f (Some (Pg.do_update now (Pg.conflict_sets f c) (R now') old)) c
    = Pg.dbToApi f (Some (R now')) c;
  sf_keep : ∀ now r old,
    Pg.do_update now (Pg.conflict_sets f c) r old !! "id" = old !! "id"
}.

(** The ids a table holds, row by row. *)
Definition ids (t : list (gmap string json)) : list json :=
  (λ r, Pg.value_of r "id") <$> t.

(** At most one row per id, in every table. *)
Definition unique_ids (d : Pg.database) : Prop :=
  ∀ c, NoDup (ids (Pg.table_of d c)).

(** A sequence of requests, each with the time it is served at. *)
Definition run (f : Pg.flavour) (reqs : list (Z * Pg.endpoint)) (d : Pg.database)
    : Pg.database :=
  foldl (λ d req, (Pg.handle f req.1 req.2 d).1) d reqs.

(** The row that the INSERT of the POST and PUT handlers proposes for the
    body [data], its first value being [idv]. *)
Definition toStorage (f : Pg.flavour) (now : Z) (c : string) (idv : jsval)
    (data : json) : option (gmap string json) :=
  match Pg.insert_statement f c idv data with
  | Some (cols, values) => Some (Pg.new_row (Pg.ddl f c) now cols (Pg.bind <$> values))
  | None => None
  end.

(** The fields of a wire record, per collection. *)
Definition wire_fields (f : Pg.flavour) (c : string) : list string :=
  if String.eqb c "employees" then
    ["id"; "name"; "pin"; "imageUrl"; "archived"; "autoDeductLunch"; "locationId";
     "departmentId"; "isTemp"; "tempAgency"]
  else if String.eqb c "timerecords" then
    ["id"; "employeeId"; "locationId"; "clockIn"; "clockOut"; "breaks"]
  else if String.eqb c "locations" then ["id"; "name"; "abbreviation"]
  else if String.eqb c "departments" then ["id"; "name"]
  else if String.eqb c "settings" then
    match f with
    | Pg.Full =>
        ["id"; "logoUrl"; "weekStartDay"; "remoteDbUrl"; "enableScreenSaver";
         "kioskLocationId"; "clockFormat"; "allowEmployeePhotoUpload";
         "timeoutStatus"; "timeoutTimecard"; "timeoutConfirmation";
         "timeoutAdminDashboard"; "timeoutAdminLogin"]
    | Pg.Basic => ["id"; "logoUrl"; "weekStartDay"; "remoteDbUrl"]
    end
  else [].


(** * The route table of the PostgreSQL servers

    Express tries the routes in the order of their registration and runs the
    first whose method and path match; [/:collection] matches any one path
    segment, [/:collection/:id] any two.  A path is the list of its decoded
    segments. *)

Module App.

Inductive verb := GET | POST | PUT | DELETE.

Record request := Request {
  method : verb;
  path : list string;
  authorization : option string;
  reqbody : json
}.

(** A response of a handler, or no route matched (Express then answers its
    own 404 page). *)
Inductive result :=
  | Answered (r : response)
  | NoRoute.

(** [app.get('/', ..)] *)
Definition health : response :=
  Response 200 (obj [("status", Some (JStr "TimeKiosk Sync Server Running (PostgreSQL)"))]).

(** [app.get('/verify', authMiddleware, ..)] of [server.js] *)
Definition verify (env : gmap string string) (hdr : option string) : response :=
  (guarded (Auth.authMiddleware (Pg.secret_var Pg.Full) env hdr)
     (λ u : unit, (u, Response 200 (obj [("ok", Some (JBool true));
                                         ("status", Some (JStr "Authorized"))])))
     ()).2.

(** [app.get('/time', ..)] of [server.js]; [iso] is
    [new Date().toISOString()]. *)
Definition time (iso : string) : response :=
  Response 200 (obj [("time", Some (JStr iso))]).

Definition data (f : Pg.flavour) (env : gmap string string) (now : Z)
    (hdr : option string) (e : Pg.endpoint) (d : Pg.database)
    : Pg.database * result :=
  let '(d', r) := Pg.serve f env now hdr e d in (d', Answered r).

(** The routes in the order the server registers them: [/], then (in
    [server.js] only) [/verify] and [/time], then the data routes. *)
Definition route (f : Pg.flavour) (env : gmap string string) (now : Z)
    (iso : string) (req : request) (d : Pg.database) : Pg.database * result :=
  match method req, path req with
  | GET, [] => (d, Answered health)
  | GET, [c] =>
      match f with
      | Pg.Full =>
          if String.eqb c "verify" then (d, Answered (verify env (authorization req)))
          else if String.eqb c "time" then (d, Answered (time iso))
          else data f env now (authorization req) (Pg.GET_all c) d
      | Pg.Basic => data f env now (authorization req) (Pg.GET_all c) d
      end
  | GET, [c; id] => data f env now (authorization req) (Pg.GET_one c id) d
  | POST, [c] => data f env now (authorization req) (Pg.POST c (reqbody req)) d
  | PUT, [c; id] => data f env now (authorization req) (Pg.PUT c id (reqbody req)) d
  | DELETE, [c; id] => data f env now (authorization req) (Pg.DELETE c id) d
  | _, _ => (d, NoRoute)
  end.

End App.

(** * More vocabulary *)

(** [o.k] for an object literal [o], read off the list of its properties:
    the first one named [k] whose value is not [undefined]. *)
Fixpoint prop_of (k : string) (props : list (string * jsval)) : jsval :=
  match props with
  | [] => None
  | (k', v) :: rest =>
      if String.eqb k' k
      then match v with Some y => Some y | None => prop_of k rest end
      else prop_of k rest
  end.

(** The table and the id that a request to a data route writes to. *)
Definition target (e : Pg.endpoint) : option (string * json) :=
  match e with
  | Pg.GET_all _ | Pg.GET_one _ _ => None
  | Pg.POST c data => Some (c, Pg.bind (get data "id"))
  | Pg.PUT c id data => Some (c, Pg.bind (js_or (get data "id") (Some (JStr id))))
  | Pg.DELETE c id => Some (c, JStr id)
  end.

(** The last document of [docs] whose primary key is [id]. *)
Fixpoint last_write (id : string) (docs : list json) : option json :=
  match docs with
  | [] => None
  | doc :: rest =>
      match last_write id rest with
      | Some later => Some later
      | None => if bool_decide (Rx.primary doc = Some id) then Some doc else None
      end
  end.

(** A write row of the replication protocol around the document [doc]. *)
Definition write_row (assumed : jsval) (doc : json) : json :=
  obj [("newDocumentState", Some doc); ("assumedMasterState", assumed)].

(** The row that the statement of a handler proposes, at time [now]. *)
Definition proposed (f : Pg.flavour) (c : string) (idv : jsval) (data : json)
    (now : Z) : gmap string json :=
  default ∅ (toStorage f now c idv data).

(** The fields a body must have (not null), with their NOT NULL columns. *)
Definition required (c : string) : list (string * string) :=
  if String.eqb c "employees" then [("name", "name"); ("pin", "pin")]
  else if String.eqb c "timerecords" then
    [("employeeId", "employee_id"); ("clockIn", "clock_in")]
  else if String.eqb c "locations" then [("name", "name")]
  else if String.eqb c "departments" then [("name", "name")]
  else [].


(** ** The values that a column takes as they are

    The conditions under which the engine of the model is the engine of
    PostgreSQL for a statement: every bound value is one that its column
    takes without a conversion the model has not. *)

(** The character that no text of PostgreSQL may hold. *)
Definition nul : Ascii.ascii := Ascii.zero.

Definition digit (a : Ascii.ascii) : option Z :=
  let n := Z.of_N (Ascii.N_of_ascii a) in
  if (48 <=? n) && (n <=? 57) then Some (n - 48) else None.

(** The number that two digits write, when it is within [lo] and [hi]. *)
Definition two_digits (lo hi : Z) (a b : Ascii.ascii) : bool :=
  match digit a, digit b with
  | Some x, Some y => (lo <=? 10 * x + y) && (10 * x + y <=? hi)
  | _, _ => false
  end.

Definition is_digit (a : Ascii.ascii) : bool :=
  match digit a with Some _ => true | None => false end.

Definition is_char (c : string) (a : Ascii.ascii) : bool :=
  String.eqb (String a EmptyString) c.

(** A timestamp as [Date.prototype.toISOString] writes it,
    [YYYY-MM-DDTHH:MM:SS.mmmZ], of a day that every month has; the year is
    not 0000. *)
Definition timestamp_literal (s : string) : bool :=
  match String.list_ascii_of_string s with
  | [y1; y2; y3; y4; d1; m1; m2; d2; a1; a2; t; h1; h2; c1; n1; n2; c2; s1; s2;
     p; f1; f2; f3; z] =>
      two_digits 0 99 y1 y2 && two_digits 0 99 y3 y4
      && negb (two_digits 0 0 y1 y2 && two_digits 0 0 y3 y4)
      && is_char "-" d1 && two_digits 1 12 m1 m2
      && is_char "-" d2 && two_digits 1 28 a1 a2
      && is_char "T" t && two_digits 0 23 h1 h2
      && is_char ":" c1 && two_digits 0 59 n1 n2
      && is_char ":" c2 && two_digits 0 59 s1 s2
      && is_char "." p && is_digit f1 && is_digit f2 && is_digit f3
      && is_char "Z" z
  | _ => false
  end.

(** A scalar of JSON whose text PostgreSQL can hold. *)
Definition scalar (v : json) : bool :=
  match v with
  | JNull | JBool _ | JNum _ => true
  | JStr s => negb (occurs nul s)
  | JArr _ | JObj _ => false
  end.

(** A scalar, or an object of scalars (a break is [{start, end}]). *)
Definition flat (v : json) : bool :=
  match v with
  | JObj o => forallb (λ kv, negb (occurs nul kv.1) && scalar kv.2) (map_to_list o)
  | _ => scalar v
  end.

(** A bound value that a column of type [ty] takes as it is: NULL; a string
    within the length of a VARCHAR; a 32-bit integer; a boolean; a timestamp
    literal; for JSONB a flat value or a list of flat values. *)
Definition fits_type (ty : Pg.sqltype) (v : json) : bool :=
  match v, ty with
  | JNull, _ => true
  | JStr s, Pg.VARCHAR n => (Z.of_nat (String.length s) <=? n) && negb (occurs nul s)
  | JStr s, Pg.TEXT => negb (occurs nul s)
  | JBool _, Pg.BOOLEAN => true
  | JNum z, Pg.INTEGER => (-2147483648 <=? z) && (z <=? 2147483647)
  | JStr s, Pg.TIMESTAMP => timestamp_literal s
  | JArr l, Pg.JSONB => forallb flat l
  | _, Pg.JSONB => flat v
  | _, _ => false
  end.




(** The id that a create or an upsert binds is NULL or a string within the
    VARCHAR(100) of the id columns. *)
Definition binds_text_id (e : Pg.endpoint) : bool :=
  match e with
  | Pg.POST _ data => fits_type (Pg.VARCHAR 100) (Pg.bind (get data "id"))
  | Pg.PUT _ id data =>
      fits_type (Pg.VARCHAR 100) (Pg.bind (js_or (get data "id") (Some (JStr id))))
  | Pg.GET_all _ | Pg.GET_one _ _ | Pg.DELETE _ _ => true
  end.

(** ** The documents of the clients *)

(** The fields that RxDB keeps for itself in a stored document and that
    [toJSON()] leaves out. *)
Definition internal_fields : list string :=
  ["_deleted"; "_rev"; "_meta"; "_attachments"].

(** A document as a client of the server sends it: the primary key [id] is
    a non-empty string within the [maxLength] of the schemas, none of the
    internal fields is there, and [employeeId], the one indexed field, is a
    string when it is there. *)
Definition client_doc (doc : json) : bool :=
  match Rx.primary doc with
  | Some id => Nat.leb (String.length id) 100
  | None => false
  end
  && forallb (λ k, match get doc k with None => true | Some _ => false end)
       internal_fields
  && match get doc "employeeId" with
     | None | Some (JStr _) => true
     | Some _ => false
     end.

(** * Properties *)

(** ** JSON values *)

Lemma json_size_elem (l : list json) x :
  x ∈ l → (json_size x < json_size (JArr l))%nat.
Proof.
  simpl. induction 1 as [x l|x y l _ IH]; simpl; lia.
Qed.

Lemma json_size_lookup (o : gmap string json) k x :
  o !! k = Some x → (json_size x < json_size (JObj o))%nat.
Proof.
  intros Hk. simpl.
  rewrite (map_fold_delete_L (λ _ x n, json_size x + n)%nat 0%nat k x o); [lia| |done].
  intros; lia.
Qed.

(** Induction on a JSON value, with the hypothesis on every element of an
    array and on every property of an object. *)
Lemma json_ind' (P : json → Prop) :
  P JNull → (∀ b, P (JBool b)) → (∀ n, P (JNum n)) → (∀ s, P (JStr s)) →
  (∀ l, Forall P l → P (JArr l)) →
  (∀ o, map_Forall (λ _, P) o → P (JObj o)) →
  ∀ j, P j.
Proof.
  intros Hnull Hbool Hnum Hstr Harr Hobj j.
  remember (json_size j) as n eqn:Hn. revert j Hn.
  induction (lt_wf n) as [n _ IH]. intros j ->.
  destruct j as [| | | |l|o]; auto.
  - apply Harr, Forall_forall. intros x Hx.
    eapply IH; [|reflexivity]. by apply json_size_elem.
  - apply Hobj. intros k x Hk.
    eapply IH; [|reflexivity]. by eapply json_size_lookup.
Qed.

Lemma map_fold_and {A} (p : string → A → bool) (m : gmap string A) :
  map_fold (λ k v acc, acc && p k v) true m = true ↔
  map_Forall (λ k v, p k v = true) m.
Proof.
  apply (map_fold_weak_ind (λ r m, r = true ↔ map_Forall (λ k v, p k v = true) m)).
  - split; [intros _; apply map_Forall_empty|done].
  - intros k x m' r Hk IH. rewrite andb_true_iff, IH, map_Forall_insert by done.
    tauto.
Qed.

Lemma json_eqb_eq x y : json_eqb x y = true ↔ x = y.
Proof.
  revert y.
  induction x as [|a|a|a|l IH|o IH] using json_ind';
    intros [|b|b|b|l'|o']; simpl;
    try (split; [discriminate|discriminate]); try done.
  - rewrite Bool.eqb_true_iff. split; congruence.
  - rewrite Z.eqb_eq. split; congruence.
  - rewrite String.eqb_eq. split; congruence.
  - revert l'. induction IH as [|x l Hx _ IHl]; intros [|y l'];
      try (split; [discriminate|discriminate]); try done.
    rewrite andb_true_iff, Hx, IHl.
    split; [intros [-> H]; congruence|intros [= -> ->]; done].
  - rewrite andb_true_iff, !map_fold_and. split.
    + intros [H1 H2]. f_equal. apply map_eq. intros k.
      destruct (o !! k) as [v|] eqn:Hv.
      * specialize (H1 k v Hv). simpl in H1.
        destruct (o' !! k) as [w|]; [|done].
        apply (IH k v Hv) in H1. by subst.
      * destruct (o' !! k) as [w|] eqn:Hw; [|done].
        specialize (H2 k w Hw). simpl in H2. apply bool_decide_eq_true in H2.
        rewrite Hv in H2. by destruct H2.
    + intros [= <-]. split.
      * intros k v Hv. simpl. rewrite Hv. by apply (IH k v Hv).
      * intros k v Hv. simpl. apply bool_decide_eq_true. eauto.
Qed.

Lemma json_eqb_refl x : json_eqb x x = true.
Proof. by apply json_eqb_eq. Qed.

Lemma json_eqb_neq x y : json_eqb x y = false ↔ x ≠ y.
Proof.
  rewrite <- json_eqb_eq. destruct (json_eqb x y); split; congruence.
Qed.

(** ** [split] *)

Lemma split_not_nil c s : split c s ≠ [].
Proof.
  destruct s as [|a s]; simpl; [done|].
  destruct (Ascii.eqb a c); [done|]. by destruct (split c s).
Qed.


(** The first piece ends at the first separator. *)
Lemma split_first c w s :
  occurs c w = false → split c (w +:+ String c s) = w :: split c s.
Proof.
  induction w as [|a w IH]; simpl.
  - intros _. by rewrite Ascii.eqb_refl.
  - destruct (Ascii.eqb a c); simpl; [done|].
    intros H. by rewrite IH.
Qed.

Lemma head_split c s : head (split c s) = Some (before_first c s).
Proof.
  induction s as [|a s IH]; simpl; [done|].
  destruct (Ascii.eqb a c); [done|].
  destruct (split c s); simpl in *; congruence.
Qed.

Lemma after_first_app c w s :
  occurs c w = false → after_first c (w +:+ String c s) = Some s.
Proof.
  induction w as [|a w IH]; simpl.
  - by rewrite Ascii.eqb_refl.
  - destruct (Ascii.eqb a c); simpl; [done|]. auto.
Qed.

Lemma app_not_empty w c s : String.eqb (w +:+ String c s) "" = false.
Proof. by destruct w. Qed.

Example split_bearer : split space "Bearer abc" = ["Bearer"; "abc"].
Proof. reflexivity. Qed.

Example split_two_spaces : split space "a  b" = ["a"; ""; "b"].
Proof. reflexivity. Qed.

Example split_empty : split space "" = [""].
Proof. reflexivity. Qed.

(** ** The auth gate *)

Example token_bearer : Auth.token_of (Some "Bearer abc") = Some "abc".
Proof. reflexivity. Qed.

Example token_trailing_space : Auth.token_of (Some "Bearer ") = Some "".
Proof. reflexivity. Qed.

Example token_bare : Auth.token_of (Some "abc") = None.
Proof. reflexivity. Qed.

(** The token of a header [w ++ " " ++ s], [w] having no space: the text of
    [s] up to its first space. *)
Lemma token_of_scheme w s :
  occurs space w = false →
  Auth.token_of (Some (w +:+ String space s)) = Some (before_first space s).
Proof.
  intros Hw. unfold Auth.token_of, truthy_s.
  rewrite app_not_empty. simpl. rewrite split_first by done.
  rewrite <- head_split. symmetry. apply head_lookup.
Qed.


Lemma gate_no_token var env hdr :
  truthy_s (Auth.token_of hdr) = false →
  Auth.authMiddleware var env hdr
  = Reply (error_response 401 "Unauthorized: No token provided").
Proof. unfold Auth.authMiddleware. by intros ->. Qed.

Lemma gate_wrong_token var env hdr :
  truthy_s (Auth.token_of hdr) = true →
  truthy_s (env !! var) = true →
  Auth.token_of hdr ≠ env !! var →
  Auth.authMiddleware var env hdr
  = Reply (error_response 403 "Forbidden: Invalid token").
Proof.
  unfold Auth.authMiddleware. intros -> -> Hne. simpl.
  by rewrite bool_decide_eq_false_2.
Qed.

Lemma gate_right_token var env hdr :
  truthy_s (Auth.token_of hdr) = true →
  Auth.token_of hdr = env !! var →
  Auth.authMiddleware var env hdr = Next.
Proof.
  unfold Auth.authMiddleware. intros -> Heq. simpl.
  rewrite bool_decide_eq_true_2 by done. by rewrite andb_false_r.
Qed.

Lemma gate_open var env hdr :
  truthy_s (env !! var) = false →
  truthy_s (Auth.token_of hdr) = true →
  Auth.authMiddleware var env hdr = Next.
Proof. unfold Auth.authMiddleware. by intros -> ->. Qed.

(** C1. On every data route of the three servers that have the gate: a
    header that yields no token is answered 401 with an error body and the
    store is as it was (the handler did not run); with a secret configured, a
    token that differs from it is answered 403 and the store is as it was;
    a token equal to the configured secret gets what the handler does. *)
Theorem C1_auth_gate (f : Pg.flavour) (env : gmap string string) (now : Z)
    (hdr : option string) (e : Pg.endpoint) (d : Pg.database)
    (e' : Rx.endpoint) (db : option Rx.rxdatabase) :
  let token := Auth.token_of hdr in
  (truthy_s token = false →
     Pg.serve f env now hdr e d
       = (d, error_response 401 "Unauthorized: No token provided")
     ∧ Rx.serve env hdr e' db
       = (db, error_response 401 "Unauthorized: No token provided"))
  ∧ (truthy_s token = true →
     (truthy_s (env !! Pg.secret_var f) = true → token ≠ env !! Pg.secret_var f →
        Pg.serve f env now hdr e d
          = (d, error_response 403 "Forbidden: Invalid token"))
     ∧ (truthy_s (env !! "SYNC_TOKEN") = true → token ≠ env !! "SYNC_TOKEN" →
        Rx.serve env hdr e' db
          = (db, error_response 403 "Forbidden: Invalid token")))
  ∧ (truthy_s token = true →
     (token = env !! Pg.secret_var f →
        Pg.serve f env now hdr e d = Pg.handle f now e d)
     ∧ (token = env !! "SYNC_TOKEN" →
        Rx.serve env hdr e' db = Rx.handle e' db)).
Proof.
  intros token. unfold Pg.serve, Rx.serve. repeat split.
  - by rewrite gate_no_token.
  - by rewrite gate_no_token.
  - intros. by rewrite gate_wrong_token.
  - intros. by rewrite gate_wrong_token.
  - intros. by rewrite gate_right_token.
  - intros. by rewrite gate_right_token.
Qed.

Lemma C1_auth_gate_witness :
  let env : gmap string string := {[ "SERVER_SECRET" := "s3cret"; "SYNC_TOKEN" := "s3cret" ]} in
  let put := Pg.PUT "departments" "DEP009" (JObj {[ "name" := JStr "Lab" ]}) in
  let put' := Rx.PUT "departments" "DEP009"
                (JObj {[ "id" := JStr "DEP009"; "name" := JStr "Lab" ]}) in
  Pg.serve Pg.Full env 5 (Some "s3cret") put (Pg.seeded Pg.Full)
    = (Pg.seeded Pg.Full, error_response 401 "Unauthorized: No token provided")
  ∧ Rx.serve env (Some "Bearer nope") put' (Some Rx.initDB_rest)
    = (Some Rx.initDB_rest, error_response 403 "Forbidden: Invalid token")
  ∧ Pg.serve Pg.Full env 5 (Some "Bearer s3cret") put (Pg.seeded Pg.Full)
    = Pg.handle Pg.Full 5 put (Pg.seeded Pg.Full).
Proof.
  intros env put put'. split; [|split].
  - apply (C1_auth_gate Pg.Full env 5 (Some "s3cret") put (Pg.seeded Pg.Full)
             put' (Some Rx.initDB_rest)).
    reflexivity.
  - apply (C1_auth_gate Pg.Full env 5 (Some "Bearer nope") put (Pg.seeded Pg.Full)
             put' (Some Rx.initDB_rest)).
    + reflexivity.
    + reflexivity.
    + vm_compute. discriminate.
  - apply (C1_auth_gate Pg.Full env 5 (Some "Bearer s3cret") put (Pg.seeded Pg.Full)
             put' (Some Rx.initDB_rest)).
    + reflexivity.
    + reflexivity.
Defined.

(** C3. With no secret in the environment (the variable unset or empty),
    every request whose header carries a non-empty token passes the gate: the
    middleware calls [next()], answers nothing itself (so never 403), and the
    data routes give what their handlers do. *)
Theorem C3_open_mode (var : string) (env : gmap string string)
    (hdr : option string) (t : string) :
  truthy_s (env !! var) = false →
  Auth.token_of hdr = Some t → t ≠ "" →
  Auth.authMiddleware var env hdr = Next
  ∧ (∀ r, Auth.authMiddleware var env hdr ≠ Reply r)
  ∧ (∀ f now e d, var = Pg.secret_var f →
       Pg.serve f env now hdr e d = Pg.handle f now e d)
  ∧ (∀ e db, var = "SYNC_TOKEN" → Rx.serve env hdr e db = Rx.handle e db).
Proof.
  intros Hopen Htok Ht.
  assert (Auth.authMiddleware var env hdr = Next) as Hnext.
  { apply gate_open; [done|]. rewrite Htok. simpl.
    apply negb_true_iff. by apply String.eqb_neq. }
  repeat split.
  - done.
  - intros r. by rewrite Hnext.
  - intros f now e d ->. unfold Pg.serve. by rewrite Hnext.
  - intros e db ->. unfold Rx.serve. by rewrite Hnext.
Qed.

Lemma C3_open_mode_witness :
  Auth.authMiddleware "SERVER_SECRET" ∅ (Some "Bearer anything") = Next.
Proof.
  apply (C3_open_mode "SERVER_SECRET" ∅ (Some "Bearer anything") "anything").
  - reflexivity.
  - reflexivity.
  - discriminate.
Defined.




(** ** Unknown collections *)

(** The PostgreSQL servers answer 404 on every data route for every name
    outside [validCollections], and leave the database alone. *)
Lemma pg_unknown_collection (f : Pg.flavour) (now : Z) (e : Pg.endpoint)
    (d : Pg.database) :
  Pg.includes Pg.validCollections (collection_of e) = false →
  Pg.handle f now e d = (d, Pg.collection_not_found).
Proof.
  destruct e; cbn [Pg.handle collection_of]; intros H;
    unfold Pg.get_all, Pg.get_one, Pg.post, Pg.put, Pg.delete_one;
    by rewrite H.
Qed.

(** C2 at a failing input. "addCollections" is not one of the five
    collection names, and it is a member of the RxDB database object (the
    source calls it): past the gate, every data route of the RxDB REST
    server and both sync routes answer 500 for it, where the specification
    says 404 and the PostgreSQL servers answer 404.  The sync server also
    registers "time_records" where the others have "timerecords": it answers
    a pull of "time_records" with 200 and knows no "timerecords". *)
Theorem C2_member_name_gives_500 :
  let c := "addCollections" in
  let doc := JObj {[ "id" := JStr "X1" ]} in
  let auth := Some "Bearer t" in
  let rest := Some Rx.initDB_rest in
  let sync := Some Rx.initDB_sync in
  Pg.includes Pg.validCollections c = false
  ∧ Rx.serve ∅ auth (Rx.GET_all c) rest
    = (rest, error_response 500 "db[collection].find is not a function")
  ∧ Rx.serve ∅ auth (Rx.GET_one c "X1") rest
    = (rest, error_response 500 "db[collection].findOne is not a function")
  ∧ Rx.serve ∅ auth (Rx.POST c doc) rest
    = (rest, error_response 500 "db[collection].insert is not a function")
  ∧ Rx.serve ∅ auth (Rx.PUT c "X1" doc) rest
    = (rest, error_response 500 "db[collection].upsert is not a function")
  ∧ Rx.serve ∅ auth (Rx.DELETE c "X1") rest
    = (rest, error_response 500 "db[collection].findOne is not a function")
  ∧ Rx.sync_pull 0 sync c (JObj ∅)
    = Rx.Sent (error_response 500 "db[collection].find is not a function")
  ∧ Rx.sync_push sync c (JArr [doc])
    = (sync, Rx.Sent (error_response 500 "db[collection].upsert is not a function"))
  ∧ Pg.includes Pg.validCollections "time_records" = false
  ∧ status_of (Rx.sync_pull 0 sync "time_records" (JObj ∅)) = Some 200
  ∧ status_of (Rx.sync_pull 0 sync "timerecords" (JObj ∅)) = Some 404.
Proof. intros. repeat apply conj; reflexivity. Qed.

(** ** Sync pull *)

Lemma find_complete (stored : gmap string json) doc :
  doc ∈ Rx.find stored ↔ ∃ id, stored !! id = Some doc.
Proof.
  unfold Rx.find. rewrite list_elem_of_fmap. split.
  - intros [[id doc'] [-> Hin]]. exists id. by apply elem_of_map_to_list.
  - intros [id Hid]. exists (id, doc). split; [done|].
    by apply elem_of_map_to_list.
Qed.

Lemma pull_body_props (docs : json) (cp : jsval) :
  let b := obj [("documents", Some docs); ("checkpoint", cp)] in
  get b "documents" = Some docs ∧ get b "checkpoint" = cp.
Proof. by destruct cp. Qed.

(** C6. For a collection of the sync server's database and every request
    body (so every checkpoint, also none or null): the pull answers 200, its
    documents are all the documents stored in the collection, each stored
    document among them, whatever the checkpoint; the checkpoint sent back is
    the id of the last document with the current time or, with no document,
    the checkpoint received. *)
Theorem C6_full_snapshot_pull (d : Rx.rxdatabase) (c : string)
    (stored : gmap string json) :
  d !! c = Some (Rx.Collection stored) →
  (∀ now reqbody,
     status_of (Rx.sync_pull now (Some d) c reqbody) = Some 200
     ∧ documents_of (Rx.sync_pull now (Some d) c reqbody)
       = Some (JArr (Rx.find stored))
     ∧ checkpoint_of (Rx.sync_pull now (Some d) c reqbody)
       = match last (Rx.find stored) with
         | Some doc => Some (obj [("id", get doc "id"); ("updatedAt", Some (JNum now))])
         | None => get reqbody "checkpoint"
         end)
  ∧ (∀ doc, doc ∈ Rx.find stored ↔ ∃ id, stored !! id = Some doc).
Proof.
  intros Hc. split; [|apply find_complete].
  intros now reqbody. unfold Rx.sync_pull. rewrite Hc.
  cbn [status_of documents_of checkpoint_of status body].
  split; [done|]. apply pull_body_props.
Qed.

(** ** The PostgreSQL engine and the handlers' statements *)

Lemma valid_cases c :
  Pg.includes Pg.validCollections c = true →
  c = "employees" ∨ c = "timerecords" ∨ c = "locations" ∨ c = "departments"
  ∨ c = "settings".
Proof.
  unfold Pg.includes, Pg.validCollections. cbn [existsb].
  rewrite !orb_true_iff, !String.eqb_eq. intuition discriminate.
Qed.

Lemma do_update_lookup now sets r old k :
  Pg.do_update now sets r old !! k
  = match assigned now sets r k with
    | Some v => Some v
    | None => old !! k
    end.
Proof.
  unfold Pg.do_update. revert old.
  induction sets as [|a sets IH]; intros old; simpl; [done|].
  rewrite IH. destruct (assigned now sets r k); [done|].
  destruct (String.eqb_spec a.1 k) as [->|Hne].
  - apply lookup_insert_eq.
  - by apply lookup_insert_ne.
Qed.

Ltac eval_statement :=
  cbn [Pg.insert_statement Pg.conflict_sets Pg.ddl String.eqb Ascii.eqb Bool.eqb
       fmap list_fmap].

Ltac abstract_values :=
  repeat match goal with
         | |- context [Pg.bind ?x] => generalize (Pg.bind x); intro
         end.

Ltac prove_facts idv :=
  split; cbn beta; cbn [fmap list_fmap];
  [ intros; reflexivity
  | intros; abstract_values; reflexivity
  | intros now; generalize (Pg.bind idv) as v0; abstract_values;
    intros v0 H; destruct v0; try reflexivity; vm_compute in H; discriminate H
  | intros; abstract_values; reflexivity
  | intros now now' old; generalize (Pg.bind idv) as v0; intros v0 Hid;
    abstract_values;
    unfold Pg.dbToApi; cbn [String.eqb Ascii.eqb Bool.eqb];
    rewrite !do_update_lookup; cbn [assigned Pg.conflict_sets String.eqb Ascii.eqb Bool.eqb fst snd];
    rewrite Hid; reflexivity
  | intros; rewrite do_update_lookup; reflexivity ].

Lemma statement_facts_valid f c idv data :
  Pg.includes Pg.validCollections c = true →
  ∃ cols values,
    Pg.insert_statement f c idv data = Some (cols, values)
    ∧ statement_facts f c idv
        (λ now, Pg.new_row (Pg.ddl f c) now cols (Pg.bind <$> values)).
Proof.
  intros Hc.
  destruct (valid_cases c Hc) as [->|[->|[->|[->| ->]]]]; [ | | | |destruct f];
    eval_statement; (eexists _, _; split; [reflexivity|]).
  - prove_facts idv.
  - prove_facts idv.
  - prove_facts idv.
  - prove_facts idv.
  - prove_facts idv.
  - prove_facts idv.
Qed.

Lemma has_id_lookup v r :
  Pg.has_id v r = true → r !! "id" = Some v ∧ Pg.is_null v = false.
Proof.
  unfold Pg.has_id, Pg.value_of. rewrite andb_true_iff, negb_true_iff, json_eqb_eq.
  intros [Hv Heq]. split; [|done].
  destruct (r !! "id") as [w|]; simpl in Heq; subst; [done|discriminate].
Qed.

Lemma lookup_has_id v r :
  r !! "id" = Some v → Pg.is_null v = false → Pg.has_id v r = true.
Proof.
  unfold Pg.has_id, Pg.value_of. intros -> ->. simpl. apply json_eqb_refl.
Qed.

Lemma has_id_ext v r r' : r !! "id" = r' !! "id" → Pg.has_id v r = Pg.has_id v r'.
Proof. unfold Pg.has_id, Pg.value_of. by intros ->. Qed.

Lemma table_of_insert_eq (d : Pg.database) c t : Pg.table_of (<[c := t]> d) c = t.
Proof. unfold Pg.table_of. by rewrite lookup_insert_eq. Qed.

Lemma table_of_insert_ne (d : Pg.database) c c' t :
  c ≠ c' → Pg.table_of (<[c := t]> d) c' = Pg.table_of d c'.
Proof. unfold Pg.table_of. intros. by rewrite lookup_insert_ne. Qed.

Lemma existsb_false_filter {A} (p : A → bool) l :
  existsb p l = false → List.filter p l = [].
Proof.
  induction l as [|x l IH]; simpl; [done|].
  rewrite orb_false_iff. intros [-> H]. auto.
Qed.

Lemma filter_nil_existsb {A} (p : A → bool) l :
  List.filter p l = [] → existsb p l = false.
Proof.
  induction l as [|x l IH]; simpl; [done|].
  destruct (p x); [discriminate|]. auto.
Qed.





(** The PUT handler, for a valid collection, in terms of its statement. *)
Lemma put_unfold f now d c pid data cols values :
  Pg.includes Pg.validCollections c = true →
  Pg.insert_statement f c (js_or (get data "id") (Some (JStr pid))) data
    = Some (cols, values) →
  Pg.put f now d c pid data
  = match Pg.insert_on_conflict_update c (Pg.ddl f c) now cols (Pg.bind <$> values)
            (Pg.conflict_sets f c) (Pg.table_of d c) with
    | inl err => (d, Pg.caught err)
    | inr (t, rows) => (<[c := t]> d, Pg.ok 200 (Pg.dbToApi f (head rows) c))
    end.
Proof. intros Hc Hs. unfold Pg.put. by rewrite Hc, Hs. Qed.


(** ** Upsert twice *)



(** ** Rows and their ids *)

Lemma has_id_unique v w r :
  Pg.has_id v r = true → Pg.has_id w r = true → v = w.
Proof.
  intros [Hv _]%has_id_lookup [Hw _]%has_id_lookup. congruence.
Qed.

(** An update of the rows with id [ID] leaves the selection by another id
    as it was. *)
Lemma filter_update_other (v ID : json) (g : gmap string json → gmap string json) t :
  (∀ x, g x !! "id" = x !! "id") →
  (∀ x, Pg.has_id ID x = false → g x = x) →
  v ≠ ID →
  List.filter (Pg.has_id v) (g <$> t) = List.filter (Pg.has_id v) t.
Proof.
  intros Hid Hg Hne. induction t as [|x t IH]; [done|].
  rewrite fmap_cons. cbn [List.filter].
  rewrite (has_id_ext v (g x) x (Hid x)), IH.
  destruct (Pg.has_id v x) eqn:Hv; [|done].
  rewrite Hg; [done|].
  destruct (Pg.has_id ID x) eqn:HI; [|done].
  destruct Hne. by eapply has_id_unique.
Qed.

Lemma get_one_unfold f d c id :
  Pg.includes Pg.validCollections c = true →
  Pg.get_one f d c id
  = match Pg.select_by_id (JStr id) (Pg.table_of d c) with
    | [] => Pg.document_not_found
    | r :: _ => Pg.ok 200 (Pg.dbToApi f (Some r) c)
    end.
Proof. intros Hc. unfold Pg.get_one. by rewrite Hc. Qed.

(** ** One row per id *)

Lemma ids_update (g : gmap string json → gmap string json) t :
  (∀ x, g x !! "id" = x !! "id") → ids (g <$> t) = ids t.
Proof.
  intros Hg. unfold ids. rewrite <- list_fmap_compose.
  apply list_fmap_ext. intros _ x _. simpl. unfold Pg.value_of. by rewrite Hg.
Qed.

Lemma ids_filter_NoDup (p : gmap string json → bool) t :
  NoDup (ids t) → NoDup (ids (List.filter p t)).
Proof.
  unfold ids. induction t as [|x t IH]; [done|].
  rewrite fmap_cons, NoDup_cons. intros [Hx Ht]. cbn [List.filter].
  destruct (p x); [|auto].
  rewrite fmap_cons, NoDup_cons. split; [|auto].
  intros Hin. apply Hx.
  apply list_elem_of_fmap in Hin as (y & -> & Hy).
  apply list_elem_of_fmap. exists y. split; [done|].
  apply list_elem_of_In. apply list_elem_of_In in Hy.
  by apply List.filter_In in Hy as [? _].
Qed.

Lemma ids_append_NoDup (ID : json) (r : gmap string json) t :
  NoDup (ids t) → Pg.is_null ID = false →
  existsb (Pg.has_id ID) t = false → Pg.value_of r "id" = ID →
  NoDup (ids (t ++ [r])).
Proof.
  intros Ht Hnull Hex Hr. unfold ids. rewrite fmap_app. apply NoDup_app.
  split; [done|]. split; [|apply NoDup_singleton].
  intros v Hv Hin. apply list_elem_of_singleton in Hin. simpl in Hin. subst v.
  apply list_elem_of_fmap in Hv as (x & Hx & Hin).
  assert (existsb (Pg.has_id ID) t = true) as Habs; [|congruence].
  apply existsb_exists. exists x. split; [by apply list_elem_of_In|].
  unfold Pg.has_id. rewrite Hnull, <- Hx, Hr. simpl. apply json_eqb_refl.
Qed.

Lemma unique_ids_insert d c t :
  unique_ids d → NoDup (ids t) → unique_ids (<[c := t]> d).
Proof.
  intros Hd Ht c'. destruct (decide (c = c')) as [<-|Hne].
  - by rewrite table_of_insert_eq.
  - rewrite table_of_insert_ne by done. apply Hd.
Qed.

Lemma post_unfold f now d c data cols values :
  Pg.includes Pg.validCollections c = true →
  Pg.insert_statement f c (get data "id") data = Some (cols, values) →
  Pg.post f now d c data
  = match Pg.insert_into c (Pg.ddl f c) now cols (Pg.bind <$> values)
            (Pg.table_of d c) with
    | inl err => (d, Pg.caught err)
    | inr (t, rows) => (<[c := t]> d, Pg.ok 201 (Pg.dbToApi f (head rows) c))
    end.
Proof. intros Hc Hs. unfold Pg.post. by rewrite Hc, Hs. Qed.

Lemma handle_unique f now e d :
  unique_ids d → unique_ids (Pg.handle f now e d).1.
Proof.
  intros Hd. destruct e as [c|c id|c data|c id data|c id]; cbn [Pg.handle fst]; try done.
  - (* POST *)
    destruct (Pg.includes Pg.validCollections c) eqn:Hc; cycle 1.
    { unfold Pg.post. by rewrite Hc. }
    destruct (statement_facts_valid f c (get data "id") data Hc)
      as (cols & values & Hs & F).
    rewrite (post_unfold _ _ _ _ _ cols values) by done.
    unfold Pg.insert_into. cbv zeta.
    set (R := Pg.new_row (Pg.ddl f c) now cols (Pg.bind <$> values)).
    destruct (Pg.null_violation (Pg.ddl f c) R) eqn:Hnull; [done|].
    pose proof (sf_key _ _ _ _ F now Hnull) as Hkey.
    pose proof (sf_id _ _ _ _ F now) as HRid. cbv beta in HRid. fold R in HRid.
    assert (Pg.value_of R "id" = Pg.bind (get data "id")) as HID
      by (unfold Pg.value_of; by rewrite HRid).
    rewrite HID.
    destruct (existsb _ (Pg.table_of d c)) eqn:Hex; [done|]. cbn [fst].
    apply unique_ids_insert; [done|].
    by apply (ids_append_NoDup (Pg.bind (get data "id"))).
  - (* PUT *)
    destruct (Pg.includes Pg.validCollections c) eqn:Hc; cycle 1.
    { unfold Pg.put. by rewrite Hc. }
    destruct (statement_facts_valid f c (js_or (get data "id") (Some (JStr id))) data Hc)
      as (cols & values & Hs & F).
    rewrite (put_unfold _ _ _ _ _ _ cols values) by done.
    unfold Pg.insert_on_conflict_update. cbv zeta.
    set (R := Pg.new_row (Pg.ddl f c) now cols (Pg.bind <$> values)).
    destruct (Pg.null_violation (Pg.ddl f c) R) eqn:Hnull; [done|].
    pose proof (sf_key _ _ _ _ F now Hnull) as Hkey.
    pose proof (sf_id _ _ _ _ F now) as HRid. cbv beta in HRid. fold R in HRid.
    set (ID := Pg.bind (js_or (get data "id") (Some (JStr id)))) in *.
    assert (Pg.value_of R "id" = ID) as HID
      by (unfold Pg.value_of; by rewrite HRid).
    rewrite HID.
    destruct (existsb _ (Pg.table_of d c)) eqn:Hex; cbn [fst].
    + apply unique_ids_insert; [done|]. rewrite ids_update; [apply Hd|].
      intros x. destruct (Pg.has_id ID x); [|done]. apply (sf_keep _ _ _ _ F).
    + apply unique_ids_insert; [done|]. by apply (ids_append_NoDup ID).
  - (* DELETE *)
    unfold Pg.delete_one. destruct (negb _); [done|].
    unfold Pg.delete_by_id.
    destruct (List.filter (Pg.has_id (JStr id)) (Pg.table_of d c)); [done|]. cbn [fst].
    apply unique_ids_insert; [done|]. apply ids_filter_NoDup, Hd.
Qed.

Lemma run_unique f reqs d : unique_ids d → unique_ids (run f reqs d).
Proof.
  unfold run. revert d. induction reqs as [|req reqs IH]; intros d Hd; [done|].
  simpl. apply IH. by apply handle_unique.
Qed.

Lemma post_duplicate f now d c data :
  Pg.includes Pg.validCollections c = true →
  existsb (Pg.has_id (Pg.bind (get data "id"))) (Pg.table_of d c) = true →
  (Pg.post f now d c data).1 = d ∧ status (Pg.post f now d c data).2 = 500.
Proof.
  intros Hc Hex.
  destruct (statement_facts_valid f c (get data "id") data Hc)
    as (cols & values & Hs & F).
  rewrite (post_unfold _ _ _ _ _ cols values) by done.
  unfold Pg.insert_into. cbv zeta.
  set (R := Pg.new_row (Pg.ddl f c) now cols (Pg.bind <$> values)).
  destruct (Pg.null_violation (Pg.ddl f c) R) eqn:Hnull; [done|].
  pose proof (sf_id _ _ _ _ F now) as HRid. cbv beta in HRid. fold R in HRid.
  assert (Pg.value_of R "id" = Pg.bind (get data "id")) as ->
    by (unfold Pg.value_of; by rewrite HRid).
  by rewrite Hex.
Qed.

(** C7. From a database with at most one row per id in every table, every
    sequence of requests to the data routes (create, upsert, delete and the
    reads) leads to such a database; and a create whose id is already in the
    table is rejected: the answer is 500 and the database is as it was. *)
Theorem C7_id_unique (f : Pg.flavour) (d : Pg.database) :
  unique_ids d →
  (∀ reqs, unique_ids (run f reqs d))
  ∧ (∀ now c data,
       Pg.includes Pg.validCollections c = true →
       existsb (Pg.has_id (Pg.bind (get data "id"))) (Pg.table_of d c) = true →
       (Pg.post f now d c data).1 = d
       ∧ status (Pg.post f now d c data).2 = 500).
Proof.
  intros Hd. split.
  - intros reqs. by apply run_unique.
  - intros. by apply post_duplicate.
Qed.

Lemma unique_ids_empty : unique_ids ∅.
Proof. intros c. unfold Pg.table_of. rewrite lookup_empty. constructor. Qed.

(** The database of a first start has one row per id. *)
Lemma seeded_unique f : unique_ids (Pg.seeded f).
Proof.
  intros c. unfold Pg.table_of.
  assert (∃ t1 t2 t3 t4 : list (gmap string json),
            Pg.seeded f = <["settings" := t1]> (<["departments" := t2]>
                            (<["locations" := t3]> (<["employees" := t4]> ∅)))
            ∧ NoDup (ids t1) ∧ NoDup (ids t2) ∧ NoDup (ids t3) ∧ NoDup (ids t4))
    as (t1 & t2 & t3 & t4 & -> & H1 & H2 & H3 & H4).
  { destruct f; do 4 eexists; (split; [reflexivity|]);
      repeat split; apply NoDup_ListNoDup; cbn;
      repeat (constructor; [cbn; intuition discriminate|]); constructor. }
  rewrite !lookup_insert. repeat case_decide; simpl; try done.
  constructor.
Qed.

(** Whatever is requested after a first start, no table ever holds two
    rows with one id. *)
Corollary seeded_run_unique f reqs : unique_ids (run f reqs (Pg.seeded f)).
Proof. apply run_unique, seeded_unique. Qed.

(** ** Scenarios on the seeded database *)

Example get_seeded_location :
  Pg.get_one Pg.Full (Pg.seeded Pg.Full) "locations" "LOC002"
  = Response 200 (JObj {[ "id" := JStr "LOC002"; "name" := JStr "Warehouse";
                          "abbreviation" := JStr "WH" ]}).
Proof. reflexivity. Qed.

(** POST /employees {id, name, pin} answers 201 with the record, the absent
    flags stored as false and the absent optional fields as null; the GET
    after it answers the same record. *)
Example create_then_get :
  let dana := JObj {[ "id" := JStr "EMP010"; "name" := JStr "Dana";
                      "pin" := JStr "9999" ]} in
  let stored := JObj {[ "id" := JStr "EMP010"; "name" := JStr "Dana";
                        "pin" := JStr "9999"; "imageUrl" := JNull;
                        "archived" := JBool false; "autoDeductLunch" := JBool false;
                        "locationId" := JNull; "departmentId" := JNull;
                        "isTemp" := JBool false; "tempAgency" := JNull ]} in
  let after := Pg.post Pg.Basic 4 (Pg.seeded Pg.Basic) "employees" dana in
  after.2 = Response 201 stored
  ∧ Pg.get_one Pg.Basic after.1 "employees" "EMP010" = Response 200 stored.
Proof. split; reflexivity. Qed.

(** DELETE /departments/DEP001, then GET /departments/DEP001: 404. *)
Example delete_then_get :
  let after := Pg.delete_one Pg.Full (Pg.seeded Pg.Full) "departments" "DEP001" in
  status after.2 = 200
  ∧ Pg.get_one Pg.Full after.1 "departments" "DEP001" = Pg.document_not_found.
Proof. split; reflexivity. Qed.

(** A create without a name violates NOT NULL and is answered 500. *)
Example create_without_name :
  Pg.post Pg.Full 4 (Pg.seeded Pg.Full) "locations" (JObj {[ "id" := JStr "LOC003" ]})
  = (Pg.seeded Pg.Full,
     error_response 500
       ("null value in column " +:+ Pg.dquote +:+ "name" +:+ Pg.dquote
        +:+ " of relation " +:+ Pg.dquote +:+ "locations" +:+ Pg.dquote
        +:+ " violates not-null constraint")).
Proof. reflexivity. Qed.

(** On the RxDB REST server a PUT without an id in the body fails, whatever
    the path id: [upsert] gets the body alone. *)
Example rx_put_without_body_id :
  Rx.put (Some Rx.initDB_rest) "locations" "LOC099" (JObj {[ "name" := JStr "Annex" ]})
  = (Some Rx.initDB_rest, error_response 500 "RxDB Error-Code COL3").
Proof. reflexivity. Qed.

(** ** The scenario of an upsert that creates *)

(** C8. Past the gate, with no row LOC099 in locations: PUT
    /locations/LOC099 with the body {name: "Annex"} answers 200 with the
    record {id: "LOC099", name: "Annex", abbreviation: null}, and a GET
    /locations/LOC099 after it answers 200 with that record. *)
Theorem C8_upsert_creates (f : Pg.flavour) (env : gmap string string)
    (now now' : Z) (hdr : option string) (d : Pg.database) :
  Auth.authMiddleware (Pg.secret_var f) env hdr = Next →
  Pg.select_by_id (JStr "LOC099") (Pg.table_of d "locations") = [] →
  let annex := JObj {[ "id" := JStr "LOC099"; "name" := JStr "Annex";
                       "abbreviation" := JNull ]} in
  let after :=
    Pg.serve f env now hdr
      (Pg.PUT "locations" "LOC099" (JObj {[ "name" := JStr "Annex" ]})) d in
  after.2 = Response 200 annex
  ∧ (Pg.serve f env now' hdr (Pg.GET_one "locations" "LOC099") after.1).2
    = Response 200 annex.
Proof.
  intros Hauth Habsent annex after. subst after.
  unfold Pg.serve. rewrite Hauth. cbn [guarded Pg.handle snd].
  apply filter_nil_existsb in Habsent.
  assert (Pg.put f now d "locations" "LOC099" (JObj {[ "name" := JStr "Annex" ]})
          = (<["locations" :=
                 Pg.table_of d "locations"
                 ++ [Pg.new_row Pg.locations_ddl now ["id"; "name"; "abbreviation"]
                       [JStr "LOC099"; JStr "Annex"; JNull]]]> d,
             Response 200 annex)) as ->.
  { unfold Pg.put, Pg.insert_on_conflict_update.
    change (Pg.includes Pg.validCollections "locations") with true.
    cbn [negb].
    change (Pg.insert_statement f "locations" _ _)
      with (Some (["id"; "name"; "abbreviation"],
                  [Some (JStr "LOC099"); Some (JStr "Annex"); None])).
    cbv zeta. cbn [fmap list_fmap Pg.bind default].
    change (Pg.ddl f "locations") with Pg.locations_ddl.
    set (R := Pg.new_row _ _ _ _).
    change (Pg.null_violation Pg.locations_ddl R) with (@None string).
    change (Pg.value_of R "id") with (JStr "LOC099").
    rewrite Habsent. reflexivity. }
  split; [done|]. cbn [fst].
  unfold Pg.get_one. rewrite table_of_insert_eq.
  change (Pg.includes Pg.validCollections "locations") with true. cbn [negb].
  unfold Pg.select_by_id. rewrite List.filter_app.
  rewrite (existsb_false_filter _ _ Habsent). reflexivity.
Qed.

(** ** The round trip of the field mapper *)






Lemma C6_full_snapshot_pull_witness :
  let e1 := JObj {[ "id" := JStr "EMP001"; "name" := JStr "Alice Johnson" ]} in
  let d := <["employees" := Rx.Collection {[ "EMP001" := e1 ]}]> Rx.initDB_sync in
  let checkpoint := JObj {[ "id" := JStr "EMP900"; "updatedAt" := JNum 99 ]} in
  documents_of (Rx.sync_pull 7 (Some d) "employees"
                  (JObj {[ "checkpoint" := checkpoint ]}))
  = Some (JArr [e1]).
Proof.
  intros e1 d checkpoint.
  destruct (C6_full_snapshot_pull d "employees" {[ "EMP001" := e1 ]}) as [H _].
  - reflexivity.
  - apply H.
Defined.

Lemma C7_id_unique_witness :
  let lab := JObj {[ "id" := JStr "DEP009"; "name" := JStr "Lab" ]} in
  let d := run Pg.Full [(1, Pg.POST "departments" lab)] ∅ in
  unique_ids (run Pg.Full [ (2, Pg.POST "departments" lab);
                            (3, Pg.PUT "departments" "DEP009" lab);
                            (4, Pg.DELETE "departments" "DEP001") ] d)
  ∧ (Pg.post Pg.Full 2 d "departments" lab).1 = d
  ∧ status (Pg.post Pg.Full 2 d "departments" lab).2 = 500.
Proof.
  intros lab d.
  assert (unique_ids d) as Hd.
  { apply (C7_id_unique Pg.Full ∅).
    intros c. unfold Pg.table_of. rewrite lookup_empty. constructor. }
  split.
  - by apply (C7_id_unique Pg.Full d).
  - apply (C7_id_unique Pg.Full d Hd); reflexivity.
Defined.

Lemma C8_upsert_creates_witness :
  let annex := JObj {[ "id" := JStr "LOC099"; "name" := JStr "Annex";
                       "abbreviation" := JNull ]} in
  let env : gmap string string := {[ "SERVER_SECRET" := "s3cret" ]} in
  let after :=
    Pg.serve Pg.Full env 8 (Some "Bearer s3cret")
      (Pg.PUT "locations" "LOC099" (JObj {[ "name" := JStr "Annex" ]}))
      (Pg.seeded Pg.Full) in
  after.2 = Response 200 annex
  ∧ (Pg.serve Pg.Full env 9 (Some "Bearer s3cret")
       (Pg.GET_one "locations" "LOC099") after.1).2
    = Response 200 annex.
Proof.
  intros annex env after.
  apply (C8_upsert_creates Pg.Full env 8 9 (Some "Bearer s3cret") (Pg.seeded Pg.Full)).
  - reflexivity.
  - reflexivity.
Defined.

(** * Further properties of the servers *)

(** ** Deleting *)


Lemma filter_neg_other (v w : json) t :
  v ≠ w →
  List.filter (Pg.has_id v) (List.filter (λ x, negb (Pg.has_id w x)) t)
  = List.filter (Pg.has_id v) t.
Proof.
  intros Hne. induction t as [|x t IH]; [done|]. cbn [List.filter].
  destruct (Pg.has_id w x) eqn:Hw; cbn [negb List.filter].
  - destruct (Pg.has_id v x) eqn:Hv; [|done].
    destruct Hne. by eapply has_id_unique.
  - by rewrite IH.
Qed.



(** ** Creating and upserting *)

(** The id column comes first in every table: a statement whose id is NULL
    fails on it. *)
Lemma null_id_violation f c idv data cols values now :
  Pg.includes Pg.validCollections c = true →
  Pg.bind idv = JNull →
  Pg.insert_statement f c idv data = Some (cols, values) →
  Pg.null_violation (Pg.ddl f c) (Pg.new_row (Pg.ddl f c) now cols (Pg.bind <$> values))
  = Some "id".
Proof.
  intros Hc Hid.
  destruct (valid_cases c Hc) as [->|[->|[->|[->| ->]]]]; [ | | | |destruct f];
    eval_statement; intros [= <- <-]; cbn [fmap list_fmap]; rewrite Hid;
    abstract_values; reflexivity.
Qed.

(** [DO UPDATE SET] never assigns [created_at]. *)
Lemma update_keeps_created_at f c now r old :
  Pg.do_update now (Pg.conflict_sets f c) r old !! "created_at" = old !! "created_at".
Proof.
  rewrite do_update_lookup. unfold Pg.conflict_sets.
  repeat (destruct (String.eqb c _); [reflexivity|]).
  destruct (String.eqb c _); [destruct f|]; reflexivity.
Qed.

Lemma update_sets_updated_at f c now r old :
  c ∈ ["employees"; "timerecords"; "settings"] →
  Pg.do_update now (Pg.conflict_sets f c) r old !! "updated_at" = Some (JNum now).
Proof.
  intros Hc. rewrite do_update_lookup.
  apply list_elem_of_In in Hc. destruct Hc as [<-|[<-|[<-|[]]]]; [| |destruct f];
    reflexivity.
Qed.

Lemma filter_fmap_keep (v : json) (g : gmap string json → gmap string json) t :
  (∀ x, g x !! "id" = x !! "id") →
  List.filter (Pg.has_id v) (g <$> t) = g <$> List.filter (Pg.has_id v) t.
Proof.
  intros Hg. induction t as [|x t IH]; [done|].
  rewrite fmap_cons. cbn [List.filter]. rewrite (has_id_ext v _ x (Hg x)), IH.
  by destruct (Pg.has_id v x).
Qed.


Lemma proposed_facts f c idv data :
  Pg.includes Pg.validCollections c = true →
  statement_facts f c idv (proposed f c idv data)
  ∧ ∃ cols values,
      Pg.insert_statement f c idv data = Some (cols, values)
      ∧ ∀ now, proposed f c idv data now
               = Pg.new_row (Pg.ddl f c) now cols (Pg.bind <$> values).
Proof.
  intros Hc.
  destruct (statement_facts_valid f c idv data Hc) as (cols & values & Hs & F).
  assert (∀ now, proposed f c idv data now
                 = Pg.new_row (Pg.ddl f c) now cols (Pg.bind <$> values)) as HR.
  { intros now. unfold proposed, toStorage. by rewrite Hs. }
  split; [|by exists cols, values].
  destruct F as [F1 F2 F3 F4 F5 F6]. split.
  - intros now. rewrite HR. apply F1.
  - intros now now'. rewrite !HR. apply F2.
  - intros now. rewrite HR. apply F3.
  - intros now now'. rewrite !HR. apply F4.
  - intros now now' old H. rewrite HR. by apply F5.
  - exact F6.
Qed.

(** What a PUT on a valid collection does, in terms of the row its statement
    proposes and the id [ID] of that row. *)
Lemma put_cases f now d c pid data :
  Pg.includes Pg.validCollections c = true →
  let idv := js_or (get data "id") (Some (JStr pid)) in
  let R := proposed f c idv data now in
  let ID := Pg.bind idv in
  let t := Pg.table_of d c in
  let upd := λ old : gmap string json,
    if Pg.has_id ID old
    then Pg.do_update now (Pg.conflict_sets f c) R old else old in
  match Pg.null_violation (Pg.ddl f c) R with
  | Some col => Pg.put f now d c pid data = (d, Pg.caught (Pg.NotNullViolation c col))
  | None =>
      Pg.is_null ID = false
      ∧ Pg.put f now d c pid data
        = (<[c := if existsb (Pg.has_id ID) t then upd <$> t else t ++ [R]]> d,
           Response 200 (wire f c R))
  end.
Proof.
  intros Hc idv R ID t upd.
  destruct (proposed_facts f c idv data Hc) as (F & cols & values & Hs & HR).
  rewrite (put_unfold _ _ _ _ _ _ cols values) by done.
  unfold Pg.insert_on_conflict_update. cbv zeta. rewrite <- (HR now). fold R.
  destruct (Pg.null_violation (Pg.ddl f c) R) eqn:Hnull; [done|].
  pose proof (sf_key _ _ _ _ F now Hnull) as Hkey. split; [done|].
  pose proof (sf_id _ _ _ _ F now) as HRid. fold R in HRid.
  assert (Pg.value_of R "id" = ID) as -> by (unfold Pg.value_of; by rewrite HRid).
  fold upd. fold t.
  destruct (existsb (Pg.has_id ID) t) eqn:Hex; [|done].
  f_equal. unfold Pg.ok. f_equal.
  assert (∀ x, upd x !! "id" = x !! "id") as Hupd.
  { intros x. unfold upd. destruct (Pg.has_id ID x); [|done]. apply (sf_keep _ _ _ _ F). }
  rewrite filter_fmap_keep by done.
  destruct (List.filter (Pg.has_id ID) t) as [|x rows] eqn:Hrows.
  { apply filter_nil_existsb in Hrows. congruence. }
  assert (In x (List.filter (Pg.has_id ID) t)) as Hx by (rewrite Hrows; by left).
  apply List.filter_In in Hx as [_ Hx]. cbn [fmap list_fmap head].
  unfold upd. rewrite Hx. unfold wire.
  apply (sf_update _ _ _ _ F now now x). by apply has_id_lookup.
Qed.

(** What a POST on a valid collection does. *)
Lemma post_cases f now d c data :
  Pg.includes Pg.validCollections c = true →
  let R := proposed f c (get data "id") data now in
  let ID := Pg.bind (get data "id") in
  let t := Pg.table_of d c in
  match Pg.null_violation (Pg.ddl f c) R with
  | Some col => Pg.post f now d c data = (d, Pg.caught (Pg.NotNullViolation c col))
  | None =>
      Pg.is_null ID = false
      ∧ Pg.post f now d c data
        = if existsb (Pg.has_id ID) t
          then (d, Pg.caught (Pg.UniqueViolation (c +:+ "_pkey")))
          else (<[c := t ++ [R]]> d, Response 201 (wire f c R))
  end.
Proof.
  intros Hc R ID t.
  destruct (proposed_facts f c (get data "id") data Hc) as (F & cols & values & Hs & HR).
  rewrite (post_unfold _ _ _ _ _ cols values) by done.
  unfold Pg.insert_into. cbv zeta. rewrite <- (HR now). fold R.
  destruct (Pg.null_violation (Pg.ddl f c) R) eqn:Hnull; [done|].
  pose proof (sf_key _ _ _ _ F now Hnull) as Hkey. split; [done|].
  pose proof (sf_id _ _ _ _ F now) as HRid. fold R in HRid.
  assert (Pg.value_of R "id" = ID) as -> by (unfold Pg.value_of; by rewrite HRid).
  fold t. by destruct (existsb _ _).
Qed.


Lemma status_200_valid f now d c pid data :
  status (Pg.put f now d c pid data).2 = 200 →
  Pg.includes Pg.validCollections c = true.
Proof.
  unfold Pg.put. destruct (Pg.includes _ c); [done|]. discriminate.
Qed.




(** X6. A request that is not answered 200 or 201 leaves the database as it
    was. *)
Theorem X6_failure_changes_nothing (f : Pg.flavour) (now : Z) (e : Pg.endpoint)
    (d : Pg.database) :
  status (Pg.handle f now e d).2 ≠ 200 →
  status (Pg.handle f now e d).2 ≠ 201 →
  (Pg.handle f now e d).1 = d.
Proof.
  destruct e as [c|c id|c data|c id data|c id]; cbn [Pg.handle fst snd]; try done.
  - intros _ Hst.
    destruct (Pg.includes Pg.validCollections c) eqn:Hc; cycle 1.
    { unfold Pg.post. by rewrite Hc. }
    pose proof (post_cases f now d c data Hc) as H. cbv zeta in H.
    destruct (Pg.null_violation _ _); [by rewrite H|].
    destruct H as [_ H]. rewrite H in *. by destruct (existsb _ _).
  - intros Hst _.
    destruct (Pg.includes Pg.validCollections c) eqn:Hc; cycle 1.
    { unfold Pg.put. by rewrite Hc. }
    pose proof (put_cases f now d c id data Hc) as H. cbv zeta in H.
    destruct (Pg.null_violation _ _); [by rewrite H|].
    destruct H as [_ H]. by rewrite H in *.
  - unfold Pg.delete_one. destruct (negb _); [done|].
    unfold Pg.delete_by_id. by destruct (List.filter _ _).
Qed.

(** X8. An upsert that finds a row with its id keeps that row's [created_at]; in
    employees, timerecords and settings it sets [updated_at] to the time of
    the call. *)
Theorem X8_upsert_timestamps (f : Pg.flavour) (now : Z) (d : Pg.database)
    (c pid : string) (data : json) (old : gmap string json) :
  let ID := Pg.bind (js_or (get data "id") (Some (JStr pid))) in
  status (Pg.put f now d c pid data).2 = 200 →
  Pg.select_by_id ID (Pg.table_of d c) = [old] →
  ∃ new,
    Pg.select_by_id ID (Pg.table_of (Pg.put f now d c pid data).1 c) = [new]
    ∧ new !! "created_at" = old !! "created_at"
    ∧ (c ∈ ["employees"; "timerecords"; "settings"] →
       new !! "updated_at" = Some (JNum now)).
Proof.
  intros ID Hst Hold. pose proof (status_200_valid _ _ _ _ _ _ Hst) as Hc.
  pose proof (put_cases f now d c pid data Hc) as H. cbv zeta in H. fold ID in H.
  destruct (proposed_facts f c (js_or (get data "id") (Some (JStr pid))) data Hc)
    as (F & _).
  destruct (Pg.null_violation _ _); [rewrite H in Hst; discriminate|].
  destruct H as [Hkey ->]. cbn [fst]. rewrite table_of_insert_eq.
  unfold Pg.select_by_id in *.
  assert (existsb (Pg.has_id ID) (Pg.table_of d c) = true) as ->.
  { destruct (existsb _ _) eqn:E; [done|].
    apply existsb_false_filter in E. congruence. }
  rewrite filter_fmap_keep, Hold; cycle 1.
  { intros x. destruct (Pg.has_id _ x); [|done]. apply (sf_keep _ _ _ _ F). }
  assert (Pg.has_id ID old = true) as Hid.
  { assert (In old (List.filter (Pg.has_id ID) (Pg.table_of d c))) as Hin
      by (rewrite Hold; by left).
    by apply List.filter_In in Hin as [_ ?]. }
  cbn [fmap list_fmap]. rewrite Hid. eexists. split; [reflexivity|]. split.
  - apply update_keeps_created_at.
  - apply update_sets_updated_at.
Qed.

(** ** Collection not found *)

(** X9. A data route answers 404 Collection not found exactly when the name is
    none of the five of [validCollections] (compared as written, case and
    all); no other answer of a handler is that one. *)
Theorem X9_collection_not_found_iff (f : Pg.flavour) (now : Z) (e : Pg.endpoint)
    (d : Pg.database) :
  (Pg.handle f now e d).2 = Pg.collection_not_found
  ↔ Pg.includes Pg.validCollections (collection_of e) = false.
Proof.
  destruct (Pg.includes Pg.validCollections (collection_of e)) eqn:Hc; cycle 1.
  { split; [done|]. intros _.
    destruct e; cbn [Pg.handle collection_of snd] in *;
      unfold Pg.get_all, Pg.get_one, Pg.post, Pg.put, Pg.delete_one; by rewrite Hc. }
  split; [|done]. intros H. exfalso.
  destruct e as [c|c id|c data|c id data|c id]; cbn [Pg.handle collection_of snd] in *.
  - unfold Pg.get_all in H. rewrite Hc in H. discriminate.
  - rewrite get_one_unfold in H by done.
    destruct (Pg.select_by_id _ _); discriminate.
  - pose proof (post_cases f now d c data Hc) as H'. cbv zeta in H'.
    destruct (Pg.null_violation _ _); [rewrite H' in H; discriminate|].
    destruct H' as [_ H']. rewrite H' in H. destruct (existsb _ _); discriminate.
  - pose proof (put_cases f now d c id data Hc) as H'. cbv zeta in H'.
    destruct (Pg.null_violation _ _); [rewrite H' in H; discriminate|].
    destruct H' as [_ H']. rewrite H' in H. discriminate.
  - unfold Pg.delete_one, Pg.delete_by_id in H. rewrite Hc in H. cbn [negb] in H.
    destruct (List.filter _ _); discriminate.
Qed.

(** ** Listing and getting *)

Lemma select_unique (t : list (gmap string json)) (r : gmap string json) (v : json) :
  NoDup (ids t) → r ∈ t → Pg.has_id v r = true →
  Pg.select_by_id v t = [r].
Proof.
  unfold Pg.select_by_id, ids. intros Hnd Hin Hr.
  induction t as [|x t IH]; [by apply elem_of_nil in Hin|].
  rewrite fmap_cons in Hnd. apply NoDup_cons in Hnd as [Hx Hnd].
  cbn [List.filter]. apply elem_of_cons in Hin as [<-|Hin].
  - rewrite Hr. f_equal. apply existsb_false_filter.
    destruct (existsb (Pg.has_id v) t) eqn:E; [|done].
    apply existsb_exists in E as (y & Hy & Hyv). destruct Hx.
    apply list_elem_of_fmap. exists y. split; [|by apply list_elem_of_In].
    apply has_id_lookup in Hr as [Hr _]. apply has_id_lookup in Hyv as [Hyv _].
    unfold Pg.value_of. by rewrite Hr, Hyv.
  - destruct (Pg.has_id v x) eqn:E; [|auto].
    destruct Hx. apply list_elem_of_fmap. exists r. split; [|done].
    apply has_id_lookup in Hr as [Hr _]. apply has_id_lookup in E as [E _].
    unfold Pg.value_of. by rewrite Hr, E.
Qed.

(** X10. With one row per id, the list and the single GET agree: every row of a
    collection is in the answer of GET /:collection, and GET /:collection/:id
    at the row's id answers that very record. *)
Theorem X10_list_and_get_agree (f : Pg.flavour) (d : Pg.database) (c s : string)
    (r : gmap string json) :
  unique_ids d →
  Pg.includes Pg.validCollections c = true →
  r ∈ Pg.table_of d c → r !! "id" = Some (JStr s) →
  Pg.get_one f d c s = Response 200 (wire f c r)
  ∧ ∃ l, Pg.get_all f d c = Response 200 (JArr l) ∧ wire f c r ∈ l.
Proof.
  intros Hd Hc Hr Hid. split.
  - rewrite get_one_unfold by done.
    rewrite (select_unique _ r); [done|apply Hd|done|by apply lookup_has_id].
  - unfold Pg.get_all. rewrite Hc. eexists. split; [reflexivity|].
    apply list_elem_of_fmap. by exists r.
Qed.

(** ** Required fields *)


Lemma null_violation_found cols_ddl (r : gmap string json) col :
  col ∈ cols_ddl →
  (Pg.col_primary_key col || Pg.col_not_null col) = true →
  Pg.is_null (Pg.value_of r (Pg.col_name col)) = true →
  Pg.null_violation cols_ddl r ≠ None.
Proof.
  intros Hin Hnn Hnull. unfold Pg.null_violation.
  destruct (List.find _ cols_ddl) eqn:E; [done|].
  apply list_elem_of_In in Hin.
  pose proof (List.find_none _ _ E col Hin) as H. cbv beta in H.
  by rewrite Hnn, Hnull in H.
Qed.

Lemma required_column f c idv data field col :
  (field, col) ∈ required c →
  Pg.bind (get data field) = JNull →
  Pg.null_violation (Pg.ddl f c) (proposed f c idv data 0) ≠ None.
Proof.
  unfold required. intros Hin Hnull.
  assert (∀ ty, Pg.Column col ty false true Pg.NoDefault ∈ Pg.ddl f c →
                proposed f c idv data 0 !! col = Some (Pg.bind (get data field)) →
                Pg.null_violation (Pg.ddl f c) (proposed f c idv data 0) ≠ None) as Hgo.
  { intros ty Hcol HR. eapply null_violation_found; [exact Hcol|done|].
    cbn [Pg.col_name]. unfold Pg.value_of. by rewrite HR, Hnull. }
  destruct (String.eqb_spec c "employees") as [->|_].
  { apply list_elem_of_In in Hin. destruct Hin as [[= <- <-]|[[= <- <-]|[]]].
    - apply (Hgo (Pg.VARCHAR 255)); [|reflexivity].
      apply list_elem_of_In. cbn. tauto.
    - apply (Hgo (Pg.VARCHAR 50)); [|reflexivity].
      apply list_elem_of_In. cbn. tauto. }
  destruct (String.eqb_spec c "timerecords") as [->|_].
  { apply list_elem_of_In in Hin. destruct Hin as [[= <- <-]|[[= <- <-]|[]]].
    - apply (Hgo (Pg.VARCHAR 100)); [|reflexivity].
      apply list_elem_of_In. cbn. tauto.
    - apply (Hgo Pg.TIMESTAMP); [|reflexivity].
      apply list_elem_of_In. cbn. tauto. }
  destruct (String.eqb_spec c "locations") as [->|_].
  { apply list_elem_of_In in Hin. destruct Hin as [[= <- <-]|[]].
    apply (Hgo (Pg.VARCHAR 255)); [|reflexivity].
    apply list_elem_of_In. cbn. tauto. }
  destruct (String.eqb_spec c "departments") as [->|_].
  { apply list_elem_of_In in Hin. destruct Hin as [[= <- <-]|[]].
    apply (Hgo (Pg.VARCHAR 255)); [|reflexivity].
    apply list_elem_of_In. cbn. tauto. }
  by apply elem_of_nil in Hin.
Qed.

(** X11. A create or an upsert whose body lacks a required field (name and pin
    of an employee, employeeId and clockIn of a time record, the name of a
    location or a department), or has null there, is answered 500 and stores
    nothing. *)
Theorem X11_required_fields_enforced (f : Pg.flavour) (now : Z) (d : Pg.database)
    (c pid field col : string) (data : json) :
  (field, col) ∈ required c →
  Pg.bind (get data field) = JNull →
  ((Pg.post f now d c data).1 = d ∧ status (Pg.post f now d c data).2 = 500)
  ∧ ((Pg.put f now d c pid data).1 = d ∧ status (Pg.put f now d c pid data).2 = 500).
Proof.
  intros Hin Hnull.
  assert (Pg.includes Pg.validCollections c = true) as Hc.
  { unfold required in Hin. unfold Pg.includes, Pg.validCollections. cbn [existsb].
    repeat (destruct (String.eqb c _); [by rewrite ?orb_true_r|]).
    by apply elem_of_nil in Hin. }
  split.
  - pose proof (post_cases f now d c data Hc) as H. cbv zeta in H.
    destruct (proposed_facts f c (get data "id") data Hc) as (F & _).
    pose proof (required_column f c (get data "id") data field col Hin Hnull) as Hv.
    rewrite (sf_null _ _ _ _ F 0 now) in Hv.
    destruct (Pg.null_violation _ _); [by rewrite H|done].
  - pose proof (put_cases f now d c pid data Hc) as H. cbv zeta in H.
    destruct (proposed_facts f c (js_or (get data "id") (Some (JStr pid))) data Hc)
      as (F & _).
    pose proof (required_column f c (js_or (get data "id") (Some (JStr pid))) data
                  field col Hin Hnull) as Hv.
    rewrite (sf_null _ _ _ _ F 0 now) in Hv.
    destruct (Pg.null_violation _ _); [by rewrite H|done].
Qed.

(** ** What [dbToApi] shows *)

Lemma get_obj props k : get (obj props) k = prop_of k props.
Proof.
  unfold obj. cbn [get].
  induction props as [|[k' v] props IH]; [done|].
  cbn [prop_of omap list_omap fst snd].
  destruct v as [y|]; cbn [fmap option_fmap option_map].
  - cbn [list_to_map foldr]. rewrite lookup_insert.
    destruct (String.eqb_spec k' k) as [->|Hne].
    + by rewrite decide_True.
    + by rewrite decide_False.
  - rewrite IH. by destruct (String.eqb k' k).
Qed.

Ltac field_cases k H :=
  repeat match type of H with
         | context [String.eqb ?a k] =>
             destruct (String.eqb_spec a k) as [<-|?];
             [clear H; apply list_elem_of_In; simpl; tauto|]
         end;
  discriminate H.

(** X12. The wire record of a row has no property beyond the fields of its
    collection: the bookkeeping columns [created_at] and [updated_at] are
    never sent; and the [breaks] of a time record are always there and never
    null (a row without breaks shows the empty list). *)
Theorem X12_dbToApi_shows (f : Pg.flavour) (c : string) (row : gmap string json) :
  Pg.includes Pg.validCollections c = true →
  (∀ k x, get (Pg.dbToApi f (Some row) c) k = Some x → k ∈ wire_fields f c)
  ∧ (c = "timerecords" →
     ∃ x, get (Pg.dbToApi f (Some row) c) "breaks" = Some x
          ∧ truthy (Some x) = true).
Proof.
  intros Hc. split.
  - intros k x H.
    destruct (valid_cases c Hc) as [->|[->|[->|[->| ->]]]]; [ | | | |destruct f];
      unfold Pg.dbToApi in H; cbn [String.eqb Ascii.eqb Bool.eqb] in H;
      rewrite get_obj in H; cbn [prop_of] in H;
      unfold wire_fields; cbn [String.eqb Ascii.eqb Bool.eqb];
      field_cases k H.
  - intros ->. unfold Pg.dbToApi. cbn [String.eqb Ascii.eqb Bool.eqb].
    rewrite get_obj. cbn [prop_of String.eqb Ascii.eqb Bool.eqb].
    unfold js_or. destruct (truthy (row !! "breaks")) eqn:E.
    + destruct (row !! "breaks") as [x|]; [|discriminate]. by exists x.
    + by exists (JArr []).
Qed.

(** ** The id of a PUT *)





(** ** Creating without an id *)

(** X3. A create whose body has no id (or a null one) stores nothing and is
    answered 500: the server never makes up an id. *)
Theorem X3_create_requires_id (f : Pg.flavour) (now : Z) (d : Pg.database)
    (c : string) (data : json) :
  Pg.includes Pg.validCollections c = true →
  Pg.bind (get data "id") = JNull →
  (Pg.post f now d c data).1 = d ∧ status (Pg.post f now d c data).2 = 500.
Proof.
  intros Hc Hid.
  destruct (proposed_facts f c (get data "id") data Hc) as (_ & cols & values & Hs & HR).
  rewrite (post_unfold _ _ _ _ _ cols values) by done.
  unfold Pg.insert_into. cbv zeta.
  by rewrite (null_id_violation f c (get data "id") data cols values now Hc Hid Hs).
Qed.

(** ** What a request leaves alone *)

(** X7. A request writes to one id of one table.  When the id that a
    create or an upsert binds is a string (within the VARCHAR(100) of the id
    columns) or missing, the rows that a GET finds under any other id, and
    under every id in the other tables, are as they were. *)
Theorem X7_write_frame (f : Pg.flavour) (now : Z) (e : Pg.endpoint)
    (d : Pg.database) (c' s : string) :
  binds_text_id e = true →
  target e ≠ Some (c', JStr s) →
  Pg.select_by_id (JStr s) (Pg.table_of (Pg.handle f now e d).1 c')
  = Pg.select_by_id (JStr s) (Pg.table_of d c').
Proof.
  intros _. generalize (JStr s). intros v Ht.
  destruct e as [c|c id|c data|c id data|c id]; cbn [Pg.handle fst snd target] in *;
    try done.
  - destruct (Pg.includes Pg.validCollections c) eqn:Hc; cycle 1.
    { unfold Pg.post. by rewrite Hc. }
    pose proof (post_cases f now d c data Hc) as H. cbv zeta in H.
    destruct (proposed_facts f c (get data "id") data Hc) as (F & _).
    destruct (Pg.null_violation _ _); [by rewrite H|].
    destruct H as [Hkey ->]. destruct (existsb _ _); [done|]. cbn [fst].
    destruct (decide (c = c')) as [<-|Hne]; [|by rewrite table_of_insert_ne].
    rewrite table_of_insert_eq. unfold Pg.select_by_id.
    rewrite List.filter_app. cbn [List.filter].
    destruct (Pg.has_id v _) eqn:E; [|by rewrite app_nil_r].
    destruct Ht. f_equal. f_equal.
    eapply has_id_unique; [|exact E].
    apply lookup_has_id; [apply (sf_id _ _ _ _ F)|done].
  - destruct (Pg.includes Pg.validCollections c) eqn:Hc; cycle 1.
    { unfold Pg.put. by rewrite Hc. }
    pose proof (put_cases f now d c id data Hc) as H. cbv zeta in H.
    destruct (proposed_facts f c (js_or (get data "id") (Some (JStr id))) data Hc)
      as (F & _).
    destruct (Pg.null_violation _ _); [by rewrite H|].
    destruct H as [Hkey ->]. cbn [fst].
    destruct (decide (c = c')) as [<-|Hne]; [|by rewrite table_of_insert_ne].
    rewrite table_of_insert_eq. unfold Pg.select_by_id.
    assert (v ≠ Pg.bind (js_or (get data "id") (Some (JStr id)))) as Hv by congruence.
    destruct (existsb _ _).
    + apply (filter_update_other _ (Pg.bind (js_or (get data "id") (Some (JStr id)))));
        [|by intros x ->|done].
      intros x. destruct (Pg.has_id _ x); [|done]. apply (sf_keep _ _ _ _ F).
    + rewrite List.filter_app. cbn [List.filter].
      destruct (Pg.has_id v _) eqn:E; [|by rewrite app_nil_r].
      destruct Hv. symmetry. eapply has_id_unique; [|exact E].
      apply lookup_has_id; [apply (sf_id _ _ _ _ F)|done].
  - unfold Pg.delete_one. destruct (negb _); [done|].
    unfold Pg.delete_by_id.
    destruct (List.filter (Pg.has_id (JStr id)) _) eqn:Hrows; [done|]. cbn [fst].
    destruct (decide (c = c')) as [<-|Hne]; [|by rewrite table_of_insert_ne].
    rewrite table_of_insert_eq. unfold Pg.select_by_id.
    apply filter_neg_other. congruence.
Qed.

(** ** [initDB] on a restart *)

















(** ** The RxDB REST server *)

Lemma lookup_member_store d c c' docs :
  Rx.lookup_member (Rx.store (Some d) c docs) c'
  = if decide (c = c') then Some (Rx.Collection docs) else d !! c'.
Proof.
  unfold Rx.store, Rx.lookup_member. cbn [fmap option_fmap option_map].
  apply lookup_insert.
Qed.

(** X15. After DELETE on a collection, whatever it answered, GET of that id
    answers 404 Document not found. *)
Theorem X15_rx_delete_then_get (db : option Rx.rxdatabase) (c id : string)
    (docs : gmap string json) :
  Rx.lookup_member db c = Some (Rx.Collection docs) →
  Rx.get_one (Rx.delete_one db c id).1 c id = Rx.document_not_found.
Proof.
  intros Hm. unfold Rx.delete_one. rewrite Hm. unfold Rx.findOne.
  destruct (docs !! id) eqn:Hid; cbn [fst].
  - destruct db as [d|]; [|discriminate]. unfold Rx.get_one.
    rewrite lookup_member_store, decide_True by done.
    unfold Rx.findOne, Rx.remove. by rewrite lookup_delete_eq.
  - unfold Rx.get_one, Rx.findOne. by rewrite Hm, Hid.
Qed.

(** X16. A request that is not answered 200 or 201 leaves the database as it
    was; and no request creates or drops a collection: a name is a member of
    the database after the request exactly when it was before. *)
Theorem X16_rx_requests_keep (e : Rx.endpoint) (db : option Rx.rxdatabase) :
  (status (Rx.handle e db).2 ≠ 200 → status (Rx.handle e db).2 ≠ 201 →
     (Rx.handle e db).1 = db)
  ∧ (∀ c, is_Some (Rx.lookup_member (Rx.handle e db).1 c)
          ↔ is_Some (Rx.lookup_member db c)).
Proof.
  assert (∀ d c docs docs' c',
            d !! c = Some (Rx.Collection docs) →
            is_Some (Rx.lookup_member (Rx.store (Some d) c docs') c')
            ↔ is_Some (d !! c')) as Hstore.
  { intros d c docs docs' c' Hd. rewrite lookup_member_store.
    case_decide as E; [subst; rewrite Hd|]; by split. }
  destruct e as [c|c id|c data|c id data|c id]; cbn [Rx.handle fst snd]; try done.
  - unfold Rx.post. destruct db as [d|]; [|done]. cbn [Rx.lookup_member].
    destruct (d !! c) as [[docs|]|] eqn:Hd; try done.
    destruct (Rx.insert_doc docs data) as [err|[docs' doc]]; [done|].
    cbn [fst snd status]. split; [done|]. intros c'. by eapply Hstore.
  - unfold Rx.put. destruct db as [d|]; [|done]. cbn [Rx.lookup_member].
    destruct (d !! c) as [[docs|]|] eqn:Hd; try done.
    destruct (Rx.upsert_doc docs data) as [err|[docs' doc]]; [done|].
    cbn [fst snd status]. split; [done|]. intros c'. by eapply Hstore.
  - unfold Rx.delete_one. destruct db as [d|]; [|done]. cbn [Rx.lookup_member].
    destruct (d !! c) as [[docs|]|] eqn:Hd; try done.
    destruct (Rx.findOne docs id); [|done].
    cbn [fst snd status]. split; [done|]. intros c'. by eapply Hstore.
Qed.


Lemma client_doc_primary doc :
  client_doc doc = true → is_Some (Rx.primary doc).
Proof.
  unfold client_doc. destruct (Rx.primary doc); [by eexists|discriminate].
Qed.

Lemma falsy_no_primary doc :
  truthy (get doc "id") = false → Rx.primary doc = None.
Proof.
  unfold Rx.primary. destruct (get doc "id") as [[]|]; try done.
  cbn [truthy]. by intros ->%negb_false_iff.
Qed.

(** X14. A create of a client's document in a collection: when no document
    with its id is stored, it is answered 201 with the document as it was
    sent, and a GET at its id then answers 200 with the same document; when a
    document with its id is stored, the create is answered 500 and changes
    nothing. *)
Theorem X14_rx_create (db : option Rx.rxdatabase) (c id : string) (data : json)
    (docs : gmap string json) :
  Rx.lookup_member db c = Some (Rx.Collection docs) →
  client_doc data = true →
  Rx.primary data = Some id →
  (docs !! id = None →
     (Rx.post db c data).2 = Response 201 data
     ∧ Rx.get_one (Rx.post db c data).1 c id = Response 200 data)
  ∧ (is_Some (docs !! id) →
     (Rx.post db c data).1 = db ∧ status (Rx.post db c data).2 = 500).
Proof.
  intros Hm _ Hp. unfold Rx.post. rewrite Hm. unfold Rx.insert_doc. rewrite Hp.
  split.
  - intros ->. cbn [fst snd]. split; [done|].
    destruct db as [d|]; [|discriminate]. unfold Rx.get_one.
    rewrite lookup_member_store, decide_True by done.
    unfold Rx.findOne. by rewrite lookup_insert_eq.
  - by intros [old ->].
Qed.

(** X17. The PUT handler gives [upsert] the body alone and never the id of
    the path: a body whose id is missing or falsy (null, the empty string, 0,
    false) stores nothing and is never answered 200, whatever the id of the
    path. *)
Theorem X17_rx_put_needs_body_id (db : option Rx.rxdatabase) (c id : string)
    (data : json) :
  truthy (get data "id") = false →
  (Rx.put db c id data).1 = db ∧ status (Rx.put db c id data).2 ≠ 200.
Proof.
  intros Hp%falsy_no_primary. unfold Rx.put.
  destruct (Rx.lookup_member db c) as [[docs|]|]; try done.
  unfold Rx.upsert_doc. by rewrite Hp.
Qed.

(** ** Sync push *)

Lemma upsert_all_last_write stored docs stored' :
  Rx.upsert_all stored docs = (stored', None) →
  ∀ id, stored' !! id = match last_write id docs with
                        | Some doc => Some doc
                        | None => stored !! id
                        end.
Proof.
  revert stored. induction docs as [|doc docs IH]; intros stored.
  { intros [= <-]. done. }
  cbn [Rx.upsert_all last_write]. unfold Rx.upsert_doc.
  destruct (Rx.primary doc) as [k|] eqn:Hk; [|discriminate].
  intros H id. rewrite (IH _ H id).
  destruct (last_write id docs); [done|].
  rewrite lookup_insert. case_bool_decide as E.
  - injection E as ->. by rewrite decide_True.
  - rewrite decide_False; [done|]. congruence.
Qed.

Lemma upsert_all_app stored l1 l2 :
  Rx.upsert_all stored (l1 ++ l2)
  = match Rx.upsert_all stored l1 with
    | (stored', None) => Rx.upsert_all stored' l2
    | (stored', Some e) => (stored', Some e)
    end.
Proof.
  revert stored. induction l1 as [|doc l1 IH]; intros stored; [done|].
  cbn [app Rx.upsert_all]. destruct (Rx.upsert_doc stored doc) as [e|[s' ?]]; [done|].
  apply IH.
Qed.

Lemma upsert_all_total stored docs :
  Forall (λ doc, is_Some (Rx.primary doc)) docs →
  ∃ stored', Rx.upsert_all stored docs = (stored', None).
Proof.
  intros H. revert stored. induction H as [|doc docs [k Hk] _ IH]; intros stored.
  { by exists stored. }
  cbn [Rx.upsert_all]. unfold Rx.upsert_doc. rewrite Hk. apply IH.
Qed.

(** X18. A push of documents of a client is answered 200 and leaves in the
    collection, under every id, the last pushed document with that id, or
    what was stored when no pushed document has it; a pull after the push
    returns exactly these. *)
Theorem X18_push_then_pull (d : Rx.rxdatabase) (c : string)
    (stored : gmap string json) (changes : json) (docs : list json)
    (now : Z) (b : json) :
  d !! c = Some (Rx.Collection stored) →
  Rx.pushed_docs changes = inr docs →
  Forall (λ doc, client_doc doc = true) docs →
  status_of (Rx.sync_push (Some d) c changes).2 = Some 200
  ∧ ∃ l, documents_of (Rx.sync_pull now (Rx.sync_push (Some d) c changes).1 c b)
         = Some (JArr l)
         ∧ ∀ doc, doc ∈ l ↔
                  ∃ id, match last_write id docs with
                        | Some last => last = doc
                        | None => stored !! id = Some doc
                        end.
Proof.
  intros Hd Hdocs Hcl.
  assert (∃ stored', Rx.upsert_all stored docs = (stored', None)) as [stored' Hup].
  { apply upsert_all_total. eapply Forall_impl; [exact Hcl|].
    intros doc. apply client_doc_primary. }
  pose proof (upsert_all_last_write _ _ _ Hup) as Hlast.
  assert (Rx.sync_push (Some d) c changes
          = (Some (<[c := Rx.Collection stored']> d),
             Rx.Sent (Response 200 (obj [("ok", Some (JBool true))])))) as ->.
  { unfold Rx.sync_push. rewrite Hd, Hdocs. destruct docs as [|doc docs].
    - injection Hup as <-. f_equal. f_equal. symmetry. by apply insert_id.
    - by rewrite Hup. }
  split; [done|]. cbn [fst].
  exists (Rx.find stored'). split.
  - unfold Rx.sync_pull. rewrite lookup_insert_eq.
    cbn [documents_of body]. apply pull_body_props.
  - intros doc. rewrite find_complete. split; intros [id Hid]; exists id.
    + rewrite Hlast in Hid. destruct (last_write id docs); congruence.
    + rewrite Hlast. destruct (last_write id docs); congruence.
Qed.

(** X19. A push is not atomic: when a document of the batch has no id (or
    a falsy one) and the documents before it are documents of a client, the
    push is answered 500, the documents before it are written all the same,
    and those after it are not. *)
Theorem X19_push_not_atomic (d : Rx.rxdatabase) (c : string)
    (stored : gmap string json) (changes : json) (good rest : list json)
    (bad : json) :
  d !! c = Some (Rx.Collection stored) →
  Rx.pushed_docs changes = inr (good ++ bad :: rest) →
  Forall (λ doc, client_doc doc = true) good →
  truthy (get bad "id") = false →
  ∃ stored',
    Rx.upsert_all stored good = (stored', None)
    ∧ (Rx.sync_push (Some d) c changes).1 = Some (<[c := Rx.Collection stored']> d)
    ∧ status_of (Rx.sync_push (Some d) c changes).2 = Some 500.
Proof.
  intros Hd Hdocs Hgood Hbad%falsy_no_primary.
  assert (Forall (λ doc, is_Some (Rx.primary doc)) good) as Hg.
  { eapply Forall_impl; [exact Hgood|]. intros doc. apply client_doc_primary. }
  destruct (upsert_all_total stored good Hg) as [stored' Hup].
  exists stored'. split; [done|].
  unfold Rx.sync_push. rewrite Hd, Hdocs.
  assert (Rx.upsert_all stored (good ++ bad :: rest) = (stored', Some Rx.PrimaryMissing))
    as Hall.
  { rewrite upsert_all_app, Hup. cbn [Rx.upsert_all]. unfold Rx.upsert_doc.
    by rewrite Hbad. }
  rewrite Hall. by destruct good.
Qed.

Lemma pushed_docs_plain docs :
  Forall (λ doc, truthy (Some doc) = true
                 ∧ truthy (get doc "newDocumentState") = false) docs →
  Rx.pushed_docs (JArr docs) = inr docs.
Proof.
  intros H. cbn [Rx.pushed_docs]. induction H as [|doc docs [Ht Hn] _ IH]; [done|].
  cbn [foldr]. rewrite IH. unfold js_or. rewrite Hn. by destruct doc.
Qed.

Lemma pushed_docs_rows assumed docs :
  Forall (λ doc, truthy (Some doc) = true) docs →
  Rx.pushed_docs (JArr (write_row assumed <$> docs)) = inr docs.
Proof.
  intros H. cbn [Rx.pushed_docs]. induction H as [|doc docs Ht _ IH]; [done|].
  rewrite fmap_cons. cbn [foldr]. rewrite IH.
  assert (get (write_row assumed doc) "newDocumentState" = Some doc) as Hget.
  { unfold write_row. by rewrite get_obj. }
  rewrite Hget. unfold js_or. rewrite Ht. done.
Qed.

(** X20. Both formats of a batch are handled alike: pushing write rows
    {newDocumentState: doc, assumedMasterState: ..} does what pushing the
    documents themselves does. *)
Theorem X20_push_unwraps (db : option Rx.rxdatabase) (c : string) (assumed : jsval)
    (docs : list json) :
  Forall (λ doc, truthy (Some doc) = true
                 ∧ truthy (get doc "newDocumentState") = false) docs →
  Rx.sync_push db c (JArr (write_row assumed <$> docs))
  = Rx.sync_push db c (JArr docs).
Proof.
  intros H. unfold Rx.sync_push.
  rewrite (pushed_docs_plain docs) by done.
  rewrite (pushed_docs_rows assumed docs); [done|].
  eapply Forall_impl; [exact H|]. by intros doc [? _].
Qed.

Lemma pushed_docs_error l e :
  Rx.pushed_docs (JArr l) = inl e →
  e = Rx.TypeError "Cannot read properties of null (reading 'newDocumentState')".
Proof.
  cbn [Rx.pushed_docs]. induction l as [|x l IH]; cbn [foldr]; [discriminate|].
  destruct (foldr _ _ l) as [e'|docs].
  - intros [= <-]. by apply IH.
  - destruct x; congruence.
Qed.

(** X21. The edges of a push to a member of the database: a body that is an
    object, not an array, or an array with a null in it, is answered 500 and
    nothing is written, not even the documents before the null; the empty
    array is answered 200 and nothing is written. *)
Theorem X21_push_edges (d : Rx.rxdatabase) (c : string) (m : Rx.member) :
  d !! c = Some m →
  (∀ o, Rx.sync_push (Some d) c (JObj o)
        = (Some d, Rx.Sent (error_response 500 "changes.map is not a function")))
  ∧ (∀ l, JNull ∈ l →
       Rx.sync_push (Some d) c (JArr l)
       = (Some d, Rx.Sent (error_response 500
            "Cannot read properties of null (reading 'newDocumentState')")))
  ∧ Rx.sync_push (Some d) c (JArr [])
    = (Some d, Rx.Sent (Response 200 (obj [("ok", Some (JBool true))]))).
Proof.
  intros Hd. unfold Rx.sync_push. rewrite Hd. repeat split.
  - intros l Hin.
    assert (Rx.pushed_docs (JArr l)
            = inl (Rx.TypeError "Cannot read properties of null (reading 'newDocumentState')"))
      as ->; [|done].
    destruct (Rx.pushed_docs (JArr l)) as [e|docs] eqn:E.
    { by rewrite (pushed_docs_error l e E). }
    exfalso. apply list_elem_of_split in Hin as (l1 & l2 & ->).
    revert docs E. cbn [Rx.pushed_docs].
    induction l1 as [|x l1 IH]; intros docs; cbn [app foldr].
    + by destruct (foldr _ _ l2).
    + destruct (foldr _ _ (l1 ++ _)) as [|docs'] eqn:E'; [done|]. intros _. by eapply IH.
  - by destruct m.
Qed.

(** ** The gate and the route table *)

(** X22. An empty token is no token: a header whose scheme word is followed by
    nothing, or by a second space before the token ("Bearer  abc"), is
    answered 401, whatever the secret. *)
Theorem X22_empty_token_rejected (var : string) (env : gmap string string)
    (w s : string) :
  occurs space w = false →
  s = "" ∨ (∃ s', s = String space s') →
  Auth.authMiddleware var env (Some (w +:+ String space s))
  = Reply (error_response 401 "Unauthorized: No token provided").
Proof.
  intros Hw Hs. apply gate_no_token. rewrite token_of_scheme by done.
  destruct Hs as [->|[s' ->]]; reflexivity.
Qed.

Lemma gate_replies var env hdr r :
  Auth.authMiddleware var env hdr = Reply r → status r = 401 ∨ status r = 403.
Proof.
  unfold Auth.authMiddleware.
  destruct (negb _); [intros [= <-]; by left|].
  destruct (_ && _); [intros [= <-]; by right|discriminate].
Qed.

(** X23. A request that does not pass the gate neither reads nor changes the
    database: what it is answered is the same for every database, and the
    database is left as it was. *)
Theorem X23_rejected_requests_see_nothing (f : Pg.flavour) (env : gmap string string)
    (now : Z) (iso : string) (req : App.request) :
  Auth.authMiddleware (Pg.secret_var f) env (App.authorization req) ≠ Next →
  ∃ x, ∀ d, App.route f env now iso req d = (d, x).
Proof.
  intros Hgate.
  destruct (Auth.authMiddleware (Pg.secret_var f) env (App.authorization req))
    as [|r] eqn:Hr; [done|].
  assert (∀ e d, App.data f env now (App.authorization req) e d = (d, App.Answered r))
    as Hdata.
  { intros e d. unfold App.data, Pg.serve. by rewrite Hr. }
  unfold App.route.
  destruct (App.method req), (App.path req) as [|c [|id [|? ?]]];
    try (eexists; intros d; first [apply Hdata|reflexivity]).
  destruct f; [|eexists; intros d; apply Hdata].
  destruct (String.eqb c "verify"); [eexists; reflexivity|].
  destruct (String.eqb c "time"); [eexists; reflexivity|].
  eexists; intros d; apply Hdata.
Qed.

(** X24. GET /verify tells what the gate does: it answers 200 exactly when the
    data routes, for the same header, give what their handlers give. *)
Theorem X24_verify_tells (env : gmap string string) (hdr : option string) :
  status (App.verify env hdr) = 200
  ↔ ∀ now e d, Pg.serve Pg.Full env now hdr e d = Pg.handle Pg.Full now e d.
Proof.
  unfold App.verify, Pg.serve.
  destruct (Auth.authMiddleware (Pg.secret_var Pg.Full) env hdr) as [|r] eqn:Hr;
    cbn [guarded snd].
  - done.
  - split.
    + intros H. apply gate_replies in Hr. destruct Hr; congruence.
    + intros H. specialize (H 0 (Pg.GET_all "") ∅). injection H as H.
      apply gate_replies in Hr. rewrite H in Hr. destruct Hr; discriminate.
Qed.

(** X25. The public routes: GET / on both servers and GET /time on [server.js]
    answer without the header or the database having a say.  The earlier
    server has no /time route: there GET /time asks for the collection
    "time" and is answered by the gate or, past it, 404. *)
Theorem X25_public_routes (f : Pg.flavour) (env : gmap string string) (now : Z)
    (iso : string) (hdr : option string) (b : json) (d : Pg.database) :
  App.route f env now iso (App.Request App.GET [] hdr b) d
    = (d, App.Answered App.health)
  ∧ App.route Pg.Full env now iso (App.Request App.GET ["time"] hdr b) d
    = (d, App.Answered (App.time iso))
  ∧ App.route Pg.Basic env now iso (App.Request App.GET ["time"] hdr b) d
    = (d, App.Answered
            match Auth.authMiddleware "SYNC_TOKEN" env hdr with
            | Next => Pg.collection_not_found
            | Reply r => r
            end).
Proof.
  split; [done|]. split; [done|].
  unfold App.route, App.data, Pg.serve. cbn [App.method App.path App.authorization].
  change (Pg.secret_var Pg.Basic) with "SYNC_TOKEN".
  by destruct (Auth.authMiddleware "SYNC_TOKEN" env hdr).
Qed.

(** ** The statements at concrete inputs *)


Lemma X11_required_fields_enforced_witness :
  let dana := JObj {[ "id" := JStr "EMP010"; "name" := JStr "Dana" ]} in
  ((Pg.post Pg.Full 1 ∅ "employees" dana).1 = ∅
   ∧ status (Pg.post Pg.Full 1 ∅ "employees" dana).2 = 500)
  ∧ ((Pg.put Pg.Full 1 ∅ "employees" "EMP010" dana).1 = ∅
     ∧ status (Pg.put Pg.Full 1 ∅ "employees" "EMP010" dana).2 = 500).
Proof.
  intros dana.
  apply (X11_required_fields_enforced Pg.Full 1 ∅ "employees" "EMP010" "pin" "pin" dana).
  - apply list_elem_of_In. simpl. tauto.
  - reflexivity.
Defined.


Lemma X6_failure_changes_nothing_witness :
  let lab := JObj {[ "id" := JStr "DEP001"; "name" := JStr "Lab" ]} in
  (Pg.handle Pg.Full 2 (Pg.POST "departments" lab) (Pg.seeded Pg.Full)).1
  = Pg.seeded Pg.Full.
Proof.
  intros lab.
  apply (X6_failure_changes_nothing Pg.Full 2 (Pg.POST "departments" lab)
           (Pg.seeded Pg.Full)).
  - intros H. change (500 = 200) in H. discriminate H.
  - intros H. change (500 = 201) in H. discriminate H.
Defined.

Lemma X8_upsert_timestamps_witness :
  let dana := JObj {[ "id" := JStr "EMP010"; "name" := JStr "Dana";
                      "pin" := JStr "9999" ]} in
  let d := (Pg.post Pg.Full 1 ∅ "employees" dana).1 in
  ∃ new,
    Pg.select_by_id (JStr "EMP010")
      (Pg.table_of (Pg.put Pg.Full 7 d "employees" "EMP010" dana).1 "employees")
    = [new]
    ∧ new !! "created_at" = Some (JNum 1)
    ∧ new !! "updated_at" = Some (JNum 7).
Proof.
  intros dana d.
  destruct (X8_upsert_timestamps Pg.Full 7 d "employees" "EMP010" dana
              (proposed Pg.Full "employees" (Some (JStr "EMP010")) dana 1))
    as (new & Hnew & Hc & Hu).
  - reflexivity.
  - reflexivity.
  - exists new. split; [exact Hnew|]. split; [exact Hc|].
    apply Hu. apply list_elem_of_In. simpl. tauto.
Defined.

Lemma X10_list_and_get_agree_witness :
  let lab := JObj {[ "id" := JStr "DEP009"; "name" := JStr "Lab" ]} in
  let d := (Pg.post Pg.Full 1 ∅ "departments" lab).1 in
  Pg.get_one Pg.Full d "departments" "DEP009" = Response 200 lab
  ∧ ∃ l, Pg.get_all Pg.Full d "departments" = Response 200 (JArr l) ∧ lab ∈ l.
Proof.
  intros lab d.
  apply (X10_list_and_get_agree Pg.Full d "departments" "DEP009"
           (proposed Pg.Full "departments" (Some (JStr "DEP009")) lab 1)).
  - apply (run_unique Pg.Full [(1, Pg.POST "departments" lab)] ∅ unique_ids_empty).
  - reflexivity.
  - apply list_elem_of_In. left. reflexivity.
  - reflexivity.
Defined.

Lemma X12_dbToApi_shows_witness :
  let row : gmap string json :=
    {[ "id" := JStr "TR001"; "employee_id" := JStr "EMP001";
       "clock_in" := JNum 5; "created_at" := JNum 5; "updated_at" := JNum 6 ]} in
  (∀ k x, get (Pg.dbToApi Pg.Full (Some row) "timerecords") k = Some x →
          k ∈ wire_fields Pg.Full "timerecords")
  ∧ ("timerecords" = "timerecords" →
     ∃ x, get (Pg.dbToApi Pg.Full (Some row) "timerecords") "breaks" = Some x
          ∧ truthy (Some x) = true).
Proof.
  intros row. apply (X12_dbToApi_shows Pg.Full "timerecords" row). reflexivity.
Defined.

Lemma X15_rx_delete_then_get_witness :
  let lab := JObj {[ "id" := JStr "DEP009"; "name" := JStr "Lab" ]} in
  let db := (Rx.post (Some Rx.initDB_rest) "departments" lab).1 in
  Rx.get_one (Rx.delete_one db "departments" "DEP009").1 "departments" "DEP009"
  = Rx.document_not_found.
Proof.
  intros lab db.
  apply (X15_rx_delete_then_get db "departments" "DEP009" {[ "DEP009" := lab ]}).
  reflexivity.
Defined.

Lemma X16_rx_requests_keep_witness :
  let lab := JObj {[ "id" := JStr "DEP009"; "name" := JStr "Lab" ]} in
  let db := (Rx.post (Some Rx.initDB_rest) "departments" lab).1 in
  (Rx.handle (Rx.POST "departments" lab) db).1 = db.
Proof.
  intros lab db.
  destruct (X16_rx_requests_keep (Rx.POST "departments" lab) db) as [H _].
  apply H.
  - intros E. change (500 = 200) in E. discriminate E.
  - intros E. change (500 = 201) in E. discriminate E.
Defined.

Lemma X20_push_unwraps_witness :
  let e1 := JObj {[ "id" := JStr "EMP001"; "name" := JStr "Alice" ]} in
  Rx.sync_push (Some Rx.initDB_sync) "employees" (JArr [write_row (Some JNull) e1])
  = Rx.sync_push (Some Rx.initDB_sync) "employees" (JArr [e1]).
Proof.
  intros e1.
  apply (X20_push_unwraps (Some Rx.initDB_sync) "employees" (Some JNull) [e1]).
  constructor; [|constructor]. split; reflexivity.
Defined.

Lemma X21_push_edges_witness :
  (∀ o, Rx.sync_push (Some Rx.initDB_sync) "employees" (JObj o)
        = (Some Rx.initDB_sync,
           Rx.Sent (error_response 500 "changes.map is not a function")))
  ∧ Rx.sync_push (Some Rx.initDB_sync) "employees"
      (JArr [JObj {[ "id" := JStr "EMP001" ]}; JNull])
    = (Some Rx.initDB_sync,
       Rx.Sent (error_response 500
                  "Cannot read properties of null (reading 'newDocumentState')")).
Proof.
  destruct (X21_push_edges Rx.initDB_sync "employees" (Rx.Collection ∅) eq_refl)
    as (H1 & H2 & _).
  split.
  - exact H1.
  - apply H2. apply list_elem_of_In. simpl. tauto.
Defined.

Lemma X22_empty_token_rejected_witness :
  Auth.authMiddleware "SERVER_SECRET" {[ "SERVER_SECRET" := "s3cret" ]}
    (Some "Bearer  s3cret")
  = Reply (error_response 401 "Unauthorized: No token provided").
Proof.
  apply (X22_empty_token_rejected "SERVER_SECRET" {[ "SERVER_SECRET" := "s3cret" ]}
           "Bearer" (String space "s3cret")).
  - reflexivity.
  - right. by exists "s3cret".
Defined.

Lemma X23_rejected_requests_see_nothing_witness :
  let env : gmap string string := {[ "SERVER_SECRET" := "s3cret" ]} in
  let req := App.Request App.DELETE ["employees"; "EMP001"] (Some "Bearer guess") JNull in
  ∃ x, ∀ d, App.route Pg.Full env 4 "2024-01-01T00:00:00.000Z" req d = (d, x).
Proof.
  intros env req.
  apply (X23_rejected_requests_see_nothing Pg.Full env 4 "2024-01-01T00:00:00.000Z" req).
  intros H.
  change (Reply (error_response 403 "Forbidden: Invalid token") = Next) in H.
  discriminate H.
Defined.

(** The settings row that the earlier server seeded takes the defaults of
    the columns that [server.js] adds, and keeps what it held. *)
Example migration_of_an_earlier_database :
  ∃ d' row,
    Pg.initDB Pg.Full 9 (Pg.seeded Pg.Basic) = inr d'
    ∧ Pg.table_of d' "settings" = [row]
    ∧ Pg.table_of (Pg.seeded Pg.Basic) "settings" !! 0%nat
      = Some (delete "timeout_admin_login" (delete "timeout_admin_dashboard"
          (delete "timeout_confirmation" (delete "timeout_timecard"
          (delete "timeout_status" (delete "allow_employee_photo_upload"
          (delete "clock_format" (delete "kiosk_location_id"
          (delete "enable_screen_saver" row)))))))))
    ∧ row !! "enable_screen_saver" = Some (JBool true)
    ∧ row !! "clock_format" = Some (JStr "12")
    ∧ row !! "timeout_admin_dashboard" = Some (JNum 60)
    ∧ Pg.get_one Pg.Full d' "settings" "GLOBAL_SETTINGS"
      ≠ Pg.get_one Pg.Full (Pg.seeded Pg.Basic) "settings" "GLOBAL_SETTINGS".
Proof.
  eexists _, _. split; [reflexivity|]. split; [reflexivity|].
  split; [reflexivity|]. split; [reflexivity|]. split; [reflexivity|].
  split; [reflexivity|]. intros H. apply (f_equal body) in H.
  apply (f_equal (λ b, get b "clockFormat")) in H.
  change (Some (JStr "12") = None) in H. discriminate H.
Qed.


Lemma X3_create_requires_id_witness :
  (Pg.post Pg.Basic 1 ∅ "departments" (JObj {[ "name" := JStr "Lab" ]})).1 = ∅
  ∧ status (Pg.post Pg.Basic 1 ∅ "departments" (JObj {[ "name" := JStr "Lab" ]})).2
    = 500.
Proof.
  apply (X3_create_requires_id Pg.Basic 1 ∅ "departments").
  - reflexivity.
  - reflexivity.
Defined.

Lemma X7_write_frame_witness :
  let depot := JObj {[ "name" := JStr "Depot" ]} in
  Pg.select_by_id (JStr "LOC002")
    (Pg.table_of (Pg.handle Pg.Full 5 (Pg.PUT "locations" "LOC001" depot)
                    (Pg.seeded Pg.Full)).1 "locations")
  = Pg.select_by_id (JStr "LOC002") (Pg.table_of (Pg.seeded Pg.Full) "locations").
Proof.
  intros depot.
  apply (X7_write_frame Pg.Full 5 (Pg.PUT "locations" "LOC001" depot) (Pg.seeded Pg.Full)
           "locations" "LOC002").
  - reflexivity.
  - intros H.
    change (Some ("locations", JStr "LOC001") = Some ("locations", JStr "LOC002")) in H.
    discriminate H.
Defined.

Lemma X14_rx_create_witness :
  let lab := JObj {[ "id" := JStr "DEP009"; "name" := JStr "Lab" ]} in
  let db := Some Rx.initDB_rest in
  let after := Rx.post db "departments" lab in
  after.2 = Response 201 lab
  ∧ Rx.get_one after.1 "departments" "DEP009" = Response 200 lab
  ∧ (Rx.post after.1 "departments" lab).1 = after.1
  ∧ status (Rx.post after.1 "departments" lab).2 = 500.
Proof.
  intros lab db after.
  destruct (X14_rx_create db "departments" "DEP009" lab ∅) as [H _];
    [reflexivity|reflexivity|reflexivity|].
  destruct (X14_rx_create after.1 "departments" "DEP009" lab {[ "DEP009" := lab ]})
    as [_ H']; [reflexivity|reflexivity|reflexivity|].
  destruct (H eq_refl) as [H1 H2]. destruct H' as [H3 H4]; [by eexists|].
  by repeat split.
Defined.

Lemma X17_rx_put_needs_body_id_witness :
  let annex := JObj {[ "id" := JStr ""; "name" := JStr "Annex" ]} in
  (Rx.put (Some Rx.initDB_rest) "locations" "LOC099" annex).1 = Some Rx.initDB_rest
  ∧ status (Rx.put (Some Rx.initDB_rest) "locations" "LOC099" annex).2 ≠ 200.
Proof.
  intros annex.
  apply (X17_rx_put_needs_body_id (Some Rx.initDB_rest) "locations" "LOC099" annex).
  reflexivity.
Defined.

Lemma X18_push_then_pull_witness :
  let e1 := JObj {[ "id" := JStr "EMP001"; "name" := JStr "Alice" ]} in
  let e1' := JObj {[ "id" := JStr "EMP001"; "name" := JStr "Alicia" ]} in
  let e2 := JObj {[ "id" := JStr "EMP002"; "name" := JStr "Bob" ]} in
  let d := <["employees" := Rx.Collection {[ "EMP002" := e2 ]}]> Rx.initDB_sync in
  let after := Rx.sync_push (Some d) "employees" (JArr [e1; e1']) in
  status_of after.2 = Some 200
  ∧ ∃ l, documents_of (Rx.sync_pull 9 after.1 "employees" (JObj ∅)) = Some (JArr l)
         ∧ e1' ∈ l ∧ e2 ∈ l ∧ e1 ∉ l.
Proof.
  intros e1 e1' e2 d after.
  destruct (X18_push_then_pull d "employees" {[ "EMP002" := e2 ]} (JArr [e1; e1'])
              [e1; e1'] 9 (JObj ∅)) as (Hst & l & Hl & Hin).
  - reflexivity.
  - reflexivity.
  - repeat constructor.
  - split; [exact Hst|]. exists l. split; [exact Hl|]. split; [|split].
    + apply Hin. exists "EMP001". reflexivity.
    + apply Hin. exists "EMP002". reflexivity.
    + intros H. apply Hin in H as [id H].
      destruct (decide (id = "EMP001")) as [->|H1].
      { change (e1' = e1) in H. discriminate H. }
      assert (last_write id [e1; e1'] = None) as E.
      { cbn [last_write]. rewrite !bool_decide_eq_false_2; [done| |];
          intros [= <-]; by destruct H1. }
      rewrite E in H.
      destruct (decide (id = "EMP002")) as [->|H2].
      { change (Some e2 = Some e1) in H. discriminate H. }
      rewrite lookup_singleton_ne in H by done. discriminate H.
Defined.

Lemma X19_push_not_atomic_witness :
  let e1 := JObj {[ "id" := JStr "EMP001"; "name" := JStr "Alice" ]} in
  let e2 := JObj {[ "id" := JStr "EMP002"; "name" := JStr "Bob" ]} in
  let nameless := JObj {[ "name" := JStr "Carol" ]} in
  let after := Rx.sync_push (Some Rx.initDB_sync) "employees" (JArr [e1; nameless; e2]) in
  ∃ stored',
    Rx.upsert_all ∅ [e1] = (stored', None)
    ∧ after.1 = Some (<["employees" := Rx.Collection stored']> Rx.initDB_sync)
    ∧ status_of after.2 = Some 500.
Proof.
  intros e1 e2 nameless after.
  apply (X19_push_not_atomic Rx.initDB_sync "employees" ∅ (JArr [e1; nameless; e2])
           [e1] [e2] nameless).
  - reflexivity.
  - reflexivity.
  - repeat constructor.
  - reflexivity.
Defined.
